(** * OrizonQA logo processing: pixel classification and recolouring

    A shallow embedding of [process_logos.py] and [process_logos_fixed.py]
    and the properties of their per-pixel transformations.

    Images are modelled in Pillow's RGBA mode: a size and the row-major
    sequence of pixels that [getdata()] returns; the pixel access object of
    [img.load()] reads and writes that same sequence at index [y * width + x].
    Python's floating point arithmetic is modelled with the kernel's binary64
    floats, so [/], [*], [int()] and [** 0.5] are computed, not idealised;
    [x ** 0.5] is taken to be the correctly rounded square root of [x].
    An operation that raises in Python returns [None] here.  The functions
    that read and write files run on a folder (a map from paths to files)
    and keep, as ghost state, the list of the steps they went through. *)

From Stdlib Require Import PrimFloat.
From Stdlib Require FloatOps SpecFloat Uint63.
From Stdlib Require Import ZArith Lia ZifyBool Bool QArith Reals Lra Ascii.
From stdpp Require Import base option list strings gmap.

Local Open Scope Z_scope.

(** ** Python numbers *)

Module Py.

(** [float(n)] for a Python integer [n] below [2^63] in size; exact below
    [2^53].  The integers this program converts are bytes, sums of three
    bytes, sums of three squares of bytes and the constants 3, 50, 106, 255. *)
Definition float_of_int (n : Z) : PrimFloat.float :=
  if n <? 0 then PrimFloat.opp (PrimFloat.of_uint63 (Uint63.of_Z (- n)))
  else PrimFloat.of_uint63 (Uint63.of_Z n).

(** [a / b] on two Python integers: true division.  Both operands are
    exactly representable here, so the correctly rounded quotient is the
    IEEE quotient of the two conversions.  Division by zero raises. *)
Definition int_truediv (a b : Z) : option PrimFloat.float :=
  if b =? 0 then None
  else Some (PrimFloat.div (float_of_int a) (float_of_int b)).

(** [x / y] on floats; [y = 0.0] raises [ZeroDivisionError]. *)
Definition float_truediv (x y : PrimFloat.float) : option PrimFloat.float :=
  if PrimFloat.eqb y PrimFloat.zero then None else Some (PrimFloat.div x y).

(** [n * x] with an integer [n] and a float [x]. *)
Definition int_mul_float (n : Z) (x : PrimFloat.float) : PrimFloat.float :=
  PrimFloat.mul (float_of_int n) x.

(** [int(x)]: truncation toward zero; NaN and infinities raise. *)
Definition int_of_float (x : PrimFloat.float) : option Z :=
  match FloatOps.Prim2SF x with
  | SpecFloat.S754_zero _ => Some 0
  | SpecFloat.S754_finite s m e =>
      let v := if 0 <=? e then Z.shiftl (Z.pos m) e
               else Z.shiftr (Z.pos m) (- e) in
      Some (if s then - v else v)
  | SpecFloat.S754_infinity _ | SpecFloat.S754_nan => None
  end.

(** [n ** 0.5] on a non-negative integer [n]: the C library's [pow(n, 0.5)],
    taken to be the correctly rounded square root. *)
Definition int_pow_half (n : Z) : PrimFloat.float :=
  PrimFloat.sqrt (float_of_int n).

(** [x < n] between a float and an integer. *)
Definition float_lt_int (x : PrimFloat.float) (n : Z) : bool :=
  PrimFloat.ltb x (float_of_int n).

(** [for x in xs: s = body(x, s)], where the body may raise. *)
Fixpoint for_each {A S : Type} (xs : list A) (body : A → S → option S)
    (s : S) : option S :=
  match xs with
  | [] => Some s
  | x :: xs' => s' ← body x s; for_each xs' body s'
  end.

(** [range(n)] *)
Definition range (n : nat) : list nat := seq 0 n.

End Py.

(** ** Pixels and images *)

(** An RGBA pixel, the 4-tuple Pillow hands out. *)
Record pixel : Type := Pixel { red : Z; green : Z; blue : Z; alpha : Z }.

Definition channel (c : Z) : Prop := 0 <= c <= 255.

(** Every band of an RGBA image is one byte. *)
Definition valid_pixel (p : pixel) : Prop :=
  channel (red p) ∧ channel (green p) ∧ channel (blue p) ∧ channel (alpha p).

Definition valid_pixelb (p : pixel) : bool :=
  forallb (λ c, (0 <=? c) && (c <=? 255)) [red p; green p; blue p; alpha p].

(** [img.size] and [img.getdata()]. *)
Record image : Type := Image { width : nat; height : nat; data : list pixel }.

Definition size (img : image) : nat * nat := (width img, height img).

(** The images Pillow can hold: as many pixels as the size says, each band
    a byte. *)
Definition wf_image (img : image) : Prop :=
  length (data img) = (height img * width img)%nat ∧
  Forall valid_pixel (data img).

Definition wf_imageb (img : image) : bool :=
  (length (data img) =? height img * width img)%nat &&
  forallb valid_pixelb (data img).

(** [img.getpixel((x, y))] / [pixels[x, y]]: [IndexError] outside the image. *)
Definition getpixel (img : image) (x y : nat) : option pixel :=
  if ((x <? width img) && (y <? height img))%nat
  then data img !! (y * width img + x)%nat
  else None.

(** [img.convert("RGBA")] on an image that is already RGBA: a copy. *)
Definition convert_RGBA (img : image) : image := img.

(** [img.putdata(seq)]: the pixels are overwritten from the first one on, as
    far as [seq] reaches; the size does not change. *)
Definition putdata (img : image) (new_data : list pixel) : image :=
  let n := length (data img) in
  Image (width img) (height img)
        (take n new_data ++ drop (length new_data) (data img)).

(** [img.crop((left, upper, right, lower))]: a new image of size
    [right - left] by [lower - upper]; what lies outside the source is
    transparent black. *)
Definition crop (img : image) (box : nat * nat * nat * nat) : image :=
  let '(x0, y0, x1, y1) := box in
  let w := (x1 - x0)%nat in
  let h := (y1 - y0)%nat in
  Image w h
    (y ← seq 0 h; x ← seq 0 w;
     [default (Pixel 0 0 0 0) (getpixel img (x0 + x) (y0 + y))]).

(** The pixel access object of [img.load()], bound to an image of size
    [w] by [h] whose pixels are [px]. *)
Definition pixels_get (w h : nat) (px : list pixel) (x y : nat) : option pixel :=
  if ((x <? w) && (y <? h))%nat then px !! (y * w + x)%nat else None.

Definition pixels_set (w h : nat) (px : list pixel) (x y : nat) (v : pixel)
    : option (list pixel) :=
  if ((x <? w) && (y <? h))%nat then Some (<[(y * w + x)%nat := v]> px) else None.

(** ** Files *)

(** A file on disk: a PNG, already decoded, or a file that is no image. *)
Inductive file : Type :=
  | Picture (img : image)
  | NoPicture.

(** The files on disk, by path. *)
Abbreviation files := (gmap string file).

Module Os.

Fixpoint ends_with_slash (s : string) : bool :=
  match s with
  | EmptyString => false
  | String c EmptyString => bool_decide (c = "/"%char)
  | String _ s' => ends_with_slash s'
  end.

(** [os.path.join(dir, name)]: an absolute [name] drops [dir]; a separator
    is put in unless [dir] is empty or ends with one. *)
Definition path_join (dir name : string) : string :=
  match name with
  | String "/"%char _ => name
  | _ => if bool_decide (dir = EmptyString) || ends_with_slash dir
         then (dir +:+ name)%string
         else (dir +:+ "/" +:+ name)%string
  end.

(** An image without a pixel: a PNG cannot hold it. *)
Definition is_empty (img : image) : bool :=
  (width img =? 0)%nat || (height img =? 0)%nat.

(** [os.path.exists(path)] *)
Definition path_exists (fs : files) (path : string) : bool :=
  bool_decide (is_Some (fs !! path)).

(** [Image.open(path)]: raises when there is no such file and when the file
    does not decode to an image. *)
Definition image_open (fs : files) (path : string) : option image :=
  match fs !! path with
  | Some (Picture img) => if is_empty img then None else Some img
  | Some NoPicture | None => None
  end.

(** [img.save(path, "PNG")]: Pillow raises on an image without a pixel. *)
Definition image_save (fs : files) (img : image) (path : string) : option files :=
  if is_empty img then None else Some (<[path := Picture img]> fs).

End Os.

(** ** Runs *)

(** What a run does, in the order it does it: ghost state beside the files,
    so that the order of the steps can be spoken of. *)
Inductive event : Type :=
  | Opened (path : string) (img : image)
  | BackgroundRemoved (input output : image)
  | Remapped (input output : image)
  | Cropped (input : image) (box : nat * nat * nat * nat) (output : image)
  | Saved (img : image) (path : string).

Record world : Type := World { disk : files; log : list event }.

(** A step of a run: it returns or raises ([None]); what was written and
    logged before an exception stays. *)
Definition run (A : Type) : Type := world → option A * world.

Module Run.

Definition ret {A : Type} (a : A) : run A := λ w, (Some a, w).

Definition bind {A B : Type} (c : run A) (k : A → run B) : run B :=
  λ w, match c w with
       | (Some a, w') => k a w'
       | (None, w') => (None, w')
       end.

(** [Image.open(path)] *)
Definition image_open (path : string) : run image :=
  λ w, match Os.image_open (disk w) path with
       | Some img => (Some img, World (disk w) (log w ++ [Opened path img]))
       | None => (None, w)
       end.

(** [img.save(path, "PNG")] *)
Definition image_save (img : image) (path : string) : run unit :=
  λ w, match Os.image_save (disk w) img path with
       | Some fs => (Some tt, World fs (log w ++ [Saved img path]))
       | None => (None, w)
       end.

(** A call [f(img)] of an image function, logged as [mk img result] when it
    returns. *)
Definition call (mk : image → image → event) (f : image → option image)
    (img : image) : run image :=
  λ w, match f img with
       | Some out => (Some out, World (disk w) (log w ++ [mk img out]))
       | None => (None, w)
       end.

(** A whole run on a folder: the folder it leaves, or the exception. *)
Definition exec {A : Type} (c : run A) (fs : files) : option files :=
  match c (World fs []) with
  | (Some _, w) => Some (disk w)
  | (None, _) => None
  end.

End Run.

#[global] Instance run_ret : MRet run := @Run.ret.
#[global] Instance run_bind : MBind run := λ A B k c, Run.bind c k.

(** ** process_logos.py *)

Module ProcessLogos.

Definition ORANGE_COLOR : Z * Z * Z := (255, 149, 0).
Definition PURPLE_COLOR : Z * Z * Z := (106, 0, 255).
Definition BLUE_COLOR : Z * Z * Z := (0, 212, 255).

Definition SOURCE_DIR : string := "/home/diegocc/OrizonQA/mocks/Orizon".
Definition OUTPUT_DIR : string := "/home/diegocc/OrizonQA/public/logos".

(** Iterating a 3-tuple. *)
Definition elems (c : Z * Z * Z) : list Z := let '(x, y, z) := c in [x; y; z].

(** [sum((a - b) ** 2 for a, b in zip(c1, c2)) ** 0.5] *)
Definition color_distance (c1 c2 : Z * Z * Z) : PrimFloat.float :=
  Py.int_pow_half
    (foldl Z.add 0 ((λ ab, (ab.1 - ab.2) ^ 2) <$> zip (elems c1) (elems c2))).

Definition bg_threshold_default : Z := 240.
Definition tolerance_default : Z := 50.

Definition remove_background (img : image) (bg_threshold : Z) : image :=
  let img := convert_RGBA img in
  let data := data img in
  let new_data :=
    foldl (λ new_data item,
             if (red item >? bg_threshold) && (green item >? bg_threshold)
                && (blue item >? bg_threshold)
             then new_data ++ [Pixel 255 255 255 0]
             else if (red item <? 20) && (green item <? 20) && (blue item <? 20)
             then new_data ++ [Pixel 0 0 0 0]
             else new_data ++ [item])
          [] data in
  putdata img new_data.

Definition convert_orange_to_purple (img : image) (tolerance : Z) : image :=
  let img := convert_RGBA img in
  let data := data img in
  let new_data :=
    foldl (λ new_data item,
             let '(Pixel r g b a) := item in
             if Py.float_lt_int (color_distance (r, g, b) ORANGE_COLOR) tolerance
             then let '(pr, pg, pb) := PURPLE_COLOR in
                  new_data ++ [Pixel pr pg pb a]
             else new_data ++ [item])
          [] data in
  putdata img new_data.

(** The [print] calls are left out: they touch no image. *)
Definition process_single_icon (filepath output_name : string)
    (convert_to_purple : bool) : run unit :=
  img ← Run.image_open filepath;
  img ← Run.call BackgroundRemoved
          (λ img, Some (remove_background img bg_threshold_default)) img;
  img ← (if convert_to_purple
         then Run.call Remapped
                (λ img, Some (convert_orange_to_purple img tolerance_default)) img
         else mret img);
  let output_path := Os.path_join OUTPUT_DIR output_name in
  Run.image_save img output_path.

Definition process_reference_sheet (filepath base_name : string)
    (convert_to_purple : bool) : run unit :=
  img ← Run.image_open filepath;
  img ← Run.call BackgroundRemoved
          (λ img, Some (remove_background img bg_threshold_default)) img;
  img ← (if convert_to_purple
         then Run.call Remapped
                (λ img, Some (convert_orange_to_purple img tolerance_default)) img
         else mret img);
  let '(width, height) := size img in
  let icon_size := Nat.min (width / 3) (height / 2) in
  let box := (0, 0, icon_size, icon_size)%nat in
  largest_icon ← Run.call (λ input output, Cropped input box output)
                   (λ img, Some (crop img box)) img;
  let icon_name := (base_name +:+ "-icon.png")%string in
  let output_path := Os.path_join OUTPUT_DIR icon_name in
  Run.image_save largest_icon output_path.

Definition files_to_process : list (string * string * bool) :=
  [ ("ChatGPT Image Nov 28, 2025, 11_04_27 PM.png", "gargantua-blue-dark.png", false);
    ("ChatGPT Image Nov 28, 2025, 11_04_30 PM.png", "gargantua-purple-dark.png", true);
    ("ChatGPT Image Nov 28, 2025, 11_04_38 PM.png", "orizon-full-blue-dark.png", false);
    ("ChatGPT Image Nov 28, 2025, 11_08_48 PM.png", "gargantua-blue-light.png", false);
    ("ChatGPT Image Nov 28, 2025, 11_11_07 PM.png", "gargantua-purple-dark-alt.png", true);
    ("ChatGPT Image Nov 28, 2025, 11_12_54 PM.png", "orizon-full-purple-dark.png", true);
    ("ChatGPT Image Nov 28, 2025, 11_28_56 PM.png", "orizon-full-blue-light.png", false)
  ]%string.

Definition reference_sheets : list (string * string * bool) :=
  [ ("ChatGPT Image Nov 28, 2025, 11_20_49 PM.png", "gargantua-blue", false);
    ("ChatGPT Image Nov 28, 2025, 11_21_57 PM.png", "gargantua-purple", true);
    ("ChatGPT Image Nov 28, 2025, 11_27_14 PM.png", "gargantua-purple-alt", true)
  ]%string.

(** [main()]: a file that is missing is reported and skipped. *)
Definition main (fs : files) : option files :=
  fs ← Py.for_each files_to_process
         (λ '(filename, output_name, convert) fs,
            let filepath := Os.path_join SOURCE_DIR filename in
            if Os.path_exists fs filepath
            then Run.exec (process_single_icon filepath output_name convert) fs
            else Some fs)
         fs;
  Py.for_each reference_sheets
    (λ '(filename, base_name, convert) fs,
       let filepath := Os.path_join SOURCE_DIR filename in
       if Os.path_exists fs filepath
       then Run.exec (process_reference_sheet filepath base_name convert) fs
       else Some fs)
    fs.

End ProcessLogos.

(** ** process_logos_fixed.py *)

Module ProcessLogosFixed.

Definition ORANGE_BASE : Z * Z * Z := (255, 149, 0).
Definition PURPLE_TARGET : Z * Z * Z := (106, 0, 255).
Definition BLUE_BASE : Z * Z * Z := (0, 212, 255).

Definition SOURCE_DIR : string := "/home/diegocc/OrizonQA/mocks/Orizon".
Definition OUTPUT_DIR : string := "/home/diegocc/OrizonQA/public/logos".

(** The [tolerance] parameter is not used by the body. *)
Definition is_orange_tone (r g b : Z) (tolerance : Z) : bool :=
  (r >? 150) && (g >? 50) && (b <? 150) && (r >? g) && (g >? b).

Definition tolerance_default : Z := 80.
Definition bg_threshold_default : Z := 240.

(** The body of the two loops of [convert_orange_to_purple] at [(x, y)];
    a [continue] hands the pixels on as they are. *)
Definition convert_at (width height : nat) (x y : nat) (pixels : list pixel)
    : option (list pixel) :=
  item ← pixels_get width height pixels x y;
  let '(Pixel r g b a) := item in
  if a <? 10 then Some pixels
  else if (r <? 30) && (g <? 30) && (b <? 30) then Some pixels
  else if (r >? 200) && (g >? 200) && (b >? 200) then Some pixels
  else if (b >? r) && (b >? g) then Some pixels
  else if is_orange_tone r g b tolerance_default then
    brightness ← Py.int_truediv (r + g + b) 3;
    intensity ← Py.float_truediv brightness 255%float;
    new_r ← Py.int_of_float (Py.int_mul_float (PURPLE_TARGET.1.1) intensity);
    new_g ← Py.int_of_float (Py.int_mul_float (PURPLE_TARGET.1.2) intensity);
    new_b ← Py.int_of_float (Py.int_mul_float (PURPLE_TARGET.2) intensity);
    pixels_set width height pixels x y (Pixel new_r new_g new_b a)
  else Some pixels.

Definition convert_orange_to_purple (img : image) : option image :=
  let img := convert_RGBA img in
  let pixels := data img in
  let '(width, height) := size img in
  pixels ← Py.for_each (Py.range height)
             (λ y pixels,
                Py.for_each (Py.range width)
                  (λ x pixels, convert_at width height x y pixels) pixels)
             pixels;
  Some (Image width height pixels).

(** The body of the two loops of [remove_bg_smart] at [(x, y)]. *)
Definition remove_bg_at (bg_threshold : Z) (width height : nat) (x y : nat)
    (pixels : list pixel) : option (list pixel) :=
  item ← pixels_get width height pixels x y;
  let '(Pixel r g b a) := item in
  if (r >? bg_threshold) && (g >? bg_threshold) && (b >? bg_threshold)
  then pixels_set width height pixels x y (Pixel 255 255 255 0)
  else if (r <? 15) && (g <? 15) && (b <? 15)
  then pixels_set width height pixels x y (Pixel 0 0 0 0)
  else Some pixels.

Definition remove_bg_smart (img : image) (bg_threshold : Z) : option image :=
  let img := convert_RGBA img in
  let pixels := data img in
  let '(width, height) := size img in
  pixels ← Py.for_each (Py.range height)
             (λ y pixels,
                Py.for_each (Py.range width)
                  (λ x pixels, remove_bg_at bg_threshold width height x y pixels)
                  pixels)
             pixels;
  Some (Image width height pixels).

(** The [print] calls are left out: they touch no image. *)
Definition process_logo (source_file output_name : string)
    (convert_to_purple remove_bg : bool) : run unit :=
  let source_path := Os.path_join SOURCE_DIR source_file in
  let output_path := Os.path_join OUTPUT_DIR output_name in
  img ← Run.image_open source_path;
  img ← (if remove_bg
         then Run.call BackgroundRemoved
                (λ img, remove_bg_smart img bg_threshold_default) img
         else mret img);
  img ← (if convert_to_purple
         then Run.call Remapped convert_orange_to_purple img
         else mret img);
  Run.image_save img output_path.

(** The calls of [main()], in order. *)
Definition main_calls : list (string * string * bool * bool) :=
  [ ("ChatGPT Image Nov 28, 2025, 11_04_27 PM.png", "gargantua-blue-dark.png", false, true);
    ("ChatGPT Image Nov 28, 2025, 11_08_48 PM.png", "gargantua-blue-light.png", false, true);
    ("ChatGPT Image Nov 28, 2025, 11_04_38 PM.png", "orizon-full-blue-dark.png", false, true);
    ("ChatGPT Image Nov 28, 2025, 11_28_56 PM.png", "orizon-full-blue-light.png", false, true);
    ("ChatGPT Image Nov 28, 2025, 11_04_30 PM.png", "gargantua-purple-dark.png", true, true);
    ("ChatGPT Image Nov 28, 2025, 11_11_07 PM.png", "gargantua-purple-light.png", true, true);
    ("ChatGPT Image Nov 28, 2025, 11_12_54 PM.png", "orizon-full-purple-dark.png", true, true)
  ]%string.

Definition main (fs : files) : option files :=
  Py.for_each main_calls
    (λ '(source_file, output_name, convert_to_purple, remove_bg) fs,
       Run.exec (process_logo source_file output_name convert_to_purple remove_bg) fs)
    fs.

End ProcessLogosFixed.

(** ** Sample pixels, images and files *)

Definition orange_px : pixel := Pixel 255 149 0 255.
Definition sky_px : pixel := Pixel 0 212 255 255.
Definition pale_px : pixel := Pixel 255 255 230 255.
Definition dim_orange_px : pixel := Pixel 200 100 0 255.
Definition glow_px : pixel := Pixel 17 16 18 255.

Definition one_pixel (p : pixel) : image := Image 1 1 [p].
Definition two_pixels : image := Image 2 1 [sky_px; orange_px].
Definition sheet : image :=
  Image 3 2 [orange_px; sky_px; pale_px; sky_px; orange_px; pale_px].
Definition tiny_sheet : image := Image 2 2 [orange_px; sky_px; pale_px; sky_px].

Definition one_file (path : string) (img : image) : files :=
  {[ path := Picture img ]}.

(** ** What the loops do to one pixel *)

(** The functions below are what the proofs show each loop to apply to every
    pixel; the statements about the code are made on the code itself. *)

(** All of R, G, B above [t]; all of them below [t]. *)
Definition all_above (t : Z) (p : pixel) : bool :=
  (red p >? t) && (green p >? t) && (blue p >? t).
Definition all_below (t : Z) (p : pixel) : bool :=
  (red p <? t) && (green p <? t) && (blue p <? t).

(** Background removal with light threshold [t] and dark threshold [d]. *)
Definition background_px (t d : Z) (p : pixel) : pixel :=
  if all_above t p then Pixel 255 255 255 0
  else if all_below d p then Pixel 0 0 0 0
  else p.

(** The squared Euclidean distance of a pixel's colour to orange #FF9500. *)
Definition orange_dist2 (p : pixel) : Z :=
  (red p - 255) ^ 2 + (green p - 149) ^ 2 + (blue p - 0) ^ 2.

(** The first version's recolouring at tolerance 50, in integer arithmetic. *)
Definition first_recolor_px (p : pixel) : pixel :=
  if orange_dist2 p <? 50 ^ 2 then Pixel 106 0 255 (alpha p) else p.

(** The first version's recolouring for any tolerance, with the test of the
    code. *)
Definition first_recolor_tol (tolerance : Z) (p : pixel) : pixel :=
  if Py.float_lt_int
       (ProcessLogos.color_distance (red p, green p, blue p) ProcessLogos.ORANGE_COLOR)
       tolerance
  then Pixel 106 0 255 (alpha p) else p.

(** The guards of the fixed version's recolouring, in the order of the code. *)
Definition is_transparent (p : pixel) : bool := alpha p <? 10.
Definition is_very_dark (p : pixel) : bool := all_below 30 p.
Definition is_very_light (p : pixel) : bool := all_above 200 p.
Definition is_blue_dominant (p : pixel) : bool :=
  (blue p >? red p) && (blue p >? green p).
Definition is_orange (p : pixel) : bool :=
  ProcessLogosFixed.is_orange_tone (red p) (green p) (blue p)
    ProcessLogosFixed.tolerance_default.

(** The pixels the fixed version recolours. *)
Definition remapped (p : pixel) : bool :=
  negb (is_transparent p) && negb (is_very_dark p) && negb (is_very_light p)
  && negb (is_blue_dominant p) && is_orange p.

(** The fixed version's recolouring, in integer arithmetic. *)
Definition fixed_recolor_px (p : pixel) : pixel :=
  if remapped p then
    let s := red p + green p + blue p in
    Pixel (106 * s / 765) 0 (255 * s / 765) (alpha p)
  else p.

(** An image with [f] applied to every pixel. *)
Definition map_image (f : pixel → pixel) (img : image) : image :=
  Image (width img) (height img) (f <$> data img).

(** The pixels after the first [k] of them, in row-major order, were
    rewritten by [f]: the invariant of the two nested loops. *)
Definition done_upto (f : pixel → pixel) (px0 : list pixel) (k : nat) : list pixel :=
  (f <$> take k px0) ++ drop k px0.

(** The image a run of the first version hands to [crop] or [save]: the
    background is removed, then the remap is applied when it is asked for. *)
Definition first_processed (img : image) (convert_to_purple : bool) : image :=
  let bg := ProcessLogos.remove_background img ProcessLogos.bg_threshold_default in
  if convert_to_purple
  then ProcessLogos.convert_orange_to_purple bg ProcessLogos.tolerance_default
  else bg.

(** ** The vocabulary of the statements *)

(** Truncation of a rational toward zero. *)
Definition Qtrunc (q : Q) : Z := Qnum q ÷ Z.pos (Qden q).

(** Brightness: the mean of R, G and B. *)
Definition brightness (p : pixel) : Q := (red p + green p + blue p) # 3.

(** A channel of the target colour scaled by [brightness / 255] and
    truncated to an integer. *)
Definition scaled_by_brightness (target : Z) (p : pixel) : Z :=
  Qtrunc (inject_Z target * (brightness p / inject_Z 255)).

(** The target colour with every channel scaled by the pixel's brightness,
    under the pixel's alpha. *)
Definition scaled_target (target : Z * Z * Z) (p : pixel) : pixel :=
  Pixel (scaled_by_brightness target.1.1 p) (scaled_by_brightness target.1.2 p)
        (scaled_by_brightness target.2 p) (alpha p).

(** The Euclidean distance in RGB space between a pixel and orange #FF9500. *)
Definition orange_distance (p : pixel) : R := R_sqrt.sqrt (IZR (orange_dist2 p)).

(** The pixel is skipped by none of the four [continue] guards. *)
Definition passes_guards (p : pixel) : Prop :=
  ¬ alpha p < 10 ∧
  ¬ (red p < 30 ∧ green p < 30 ∧ blue p < 30) ∧
  ¬ (red p > 200 ∧ green p > 200 ∧ blue p > 200) ∧
  ¬ (blue p > red p ∧ blue p > green p).

(** [is_orange_tone(r, g, b)] holds. *)
Definition orange_tone (p : pixel) : Prop :=
  red p > 150 ∧ green p > 50 ∧ blue p < 150 ∧ red p > green p ∧ green p > blue p.

(** One of the four [continue] guards fires. *)
Definition skipped (p : pixel) : Prop :=
  alpha p < 10 ∨
  (red p < 30 ∧ green p < 30 ∧ blue p < 30) ∨
  (red p > 200 ∧ green p > 200 ∧ blue p > 200) ∨
  (blue p > red p ∧ blue p > green p).

(** All of R, G, B above the light threshold; all below the dark one. *)
Definition light_bg (t : Z) (p : pixel) : Prop :=
  red p > t ∧ green p > t ∧ blue p > t.
Definition dark_bg (d : Z) (p : pixel) : Prop :=
  red p < d ∧ green p < d ∧ blue p < d.

(** What background removal with light threshold 240 and dark threshold [d]
    makes of [p]. *)
Definition background_removed (d : Z) (p out : pixel) : Prop :=
  (light_bg 240 p → out = Pixel 255 255 255 0) ∧
  (dark_bg d p → out = Pixel 0 0 0 0) ∧
  (¬ light_bg 240 p → ¬ dark_bg d p → out = p) ∧
  (alpha p ≠ 0 → (alpha out = 0 ↔ light_bg 240 p ∨ dark_bg d p)).

(** Same width, height and number of pixels. *)
Definition same_dimensions (img out : image) : Prop :=
  width out = width img ∧ height out = height img ∧
  length (data out) = length (data img).

(** ** Checking a property on a whole range of integers *)

Fixpoint all_from (P : Z → bool) (lo : Z) (n : nat) : bool :=
  match n with
  | O => true
  | S k => P lo && all_from P (lo + 1) k
  end.

Definition all_in_range (P : Z → bool) (lo hi : Z) : bool :=
  all_from P lo (Z.to_nat (hi + 1 - lo)).

(** The floating point steps of the fixed [convert_orange_to_purple],
    [int(c * (((r + g + b) / 3) / 255.0))] for the three target channels, as
    a function of [s = r + g + b] and of what is done with the results. *)
Definition scale_chain {A : Type} (s : Z) (k : Z → Z → Z → option A) : option A :=
  brightness ← Py.int_truediv s 3;
  intensity ← Py.float_truediv brightness 255%float;
  new_r ← Py.int_of_float (Py.int_mul_float 106 intensity);
  new_g ← Py.int_of_float (Py.int_mul_float 0 intensity);
  new_b ← Py.int_of_float (Py.int_mul_float 255 intensity);
  k new_r new_g new_b.

(** The floats give the exact quotients at [s]. *)
Definition scale_chain_exact (s : Z) : bool :=
  match scale_chain s (λ r g b, Some (r, g, b)) with
  | Some (r, g, b) => (r =? 106 * s / 765) && (g =? 0) && (b =? 255 * s / 765)
  | None => false
  end.

(** [n ** 0.5 < 50] decides [n < 50 ** 2] at [n]. *)
Definition dist_test_exact (n : Z) : bool :=
  Bool.eqb (Py.float_lt_int (Py.int_pow_half n) 50) (n <? 50 ^ 2).

(** ** The runs of [main], entry by entry *)

(** What one entry of a table of [main] amounts to: the file that is read,
    the file that is written and what happens to the image in between. *)
Record job : Type :=
  Job { job_src : string; job_dst : string; job_run : image → option image }.

(** One entry is run: with [skip_missing] a source that is not there is
    skipped; otherwise the source is opened, worked on and saved, and each of
    the three may raise. *)
Definition run_job (skip_missing : bool) (j : job) (fs : files) : option files :=
  if skip_missing && negb (Os.path_exists fs (job_src j)) then Some fs
  else img ← Os.image_open fs (job_src j);
       img' ← job_run j img;
       Os.image_save fs img' (job_dst j).

(** The events of a run of the first version up to the remap. *)
Definition remap_step (convert_to_purple : bool) (bg processed : image)
    : list event :=
  if convert_to_purple then [Remapped bg processed] else [].

Definition first_steps (filepath : string) (img : image) (convert_to_purple : bool)
    : list event :=
  let bg := ProcessLogos.remove_background img ProcessLogos.bg_threshold_default in
  [Opened filepath img; BackgroundRemoved img bg]
  ++ remap_step convert_to_purple bg (first_processed img convert_to_purple).

(** The icon [process_reference_sheet] cuts out of a sheet. *)
Definition first_icon (img : image) (convert_to_purple : bool) : image :=
  let processed := first_processed img convert_to_purple in
  let side := Nat.min (width processed / 3) (height processed / 2) in
  crop processed (0, 0, side, side)%nat.

(** The image a run of the fixed version hands to [save]. *)
Definition fixed_processed (convert_to_purple remove_bg : bool) (img : image)
    : option image :=
  img ← (if remove_bg
         then ProcessLogosFixed.remove_bg_smart img ProcessLogosFixed.bg_threshold_default
         else Some img);
  if convert_to_purple then ProcessLogosFixed.convert_orange_to_purple img
  else Some img.

Definition single_job (e : string * string * bool) : job :=
  Job (Os.path_join ProcessLogos.SOURCE_DIR e.1.1)
      (Os.path_join ProcessLogos.OUTPUT_DIR e.1.2)
      (λ img, Some (first_processed img e.2)).

Definition sheet_job (e : string * string * bool) : job :=
  Job (Os.path_join ProcessLogos.SOURCE_DIR e.1.1)
      (Os.path_join ProcessLogos.OUTPUT_DIR (e.1.2 +:+ "-icon.png"))
      (λ img, Some (first_icon img e.2)).

Definition logo_job (e : string * string * bool * bool) : job :=
  Job (Os.path_join ProcessLogosFixed.SOURCE_DIR e.1.1.1)
      (Os.path_join ProcessLogosFixed.OUTPUT_DIR e.1.1.2)
      (fixed_processed e.1.2 e.2).

Definition first_jobs : list job :=
  (single_job <$> ProcessLogos.files_to_process)
  ++ (sheet_job <$> ProcessLogos.reference_sheets).

Definition fixed_jobs : list job := logo_job <$> ProcessLogosFixed.main_calls.

(** The files the two versions of [main] read and write. *)
Definition first_sources : list string := job_src <$> first_jobs.
Definition first_outputs : list string := job_dst <$> first_jobs.
Definition fixed_sources : list string := job_src <$> fixed_jobs.

(** No two entries write the same file, and no entry writes a file that an
    entry reads. *)
Definition jobs_apart (js : list job) : Prop :=
  NoDup (job_dst <$> js) ∧
  Forall (λ src, src ∉ (job_dst <$> js)) (job_src <$> js).


(** A folder with one source image of the first version. *)
Definition first_sample_folder : files :=
  one_file (Os.path_join ProcessLogos.SOURCE_DIR
              "ChatGPT Image Nov 28, 2025, 11_04_30 PM.png") sheet.

(** ** Trying the code on small inputs *)

Example fixed_convert_orange :
  ProcessLogosFixed.convert_orange_to_purple (one_pixel orange_px)
  = Some (one_pixel (Pixel 55 0 134 255)).
Proof. vm_compute. reflexivity. Qed.

Example fixed_convert_sheet :
  ProcessLogosFixed.convert_orange_to_purple sheet
  = Some (Image 3 2 [Pixel 55 0 134 255; sky_px; pale_px;
                     sky_px; Pixel 55 0 134 255; pale_px]).
Proof. vm_compute. reflexivity. Qed.

Example fixed_remove_bg_sheet :
  ProcessLogosFixed.remove_bg_smart
    (Image 2 2 [Pixel 250 250 250 255; Pixel 14 14 14 255;
                Pixel 15 14 14 255; pale_px]) 240
  = Some (Image 2 2 [Pixel 255 255 255 0; Pixel 0 0 0 0;
                     Pixel 15 14 14 255; pale_px]).
Proof. vm_compute. reflexivity. Qed.

Example fixed_convert_bad_size :
  ProcessLogosFixed.convert_orange_to_purple (Image 2 1 [orange_px]) = None.
Proof. vm_compute. reflexivity. Qed.

Example first_remove_background_sheet :
  ProcessLogos.remove_background
    (Image 2 2 [Pixel 250 250 250 255; Pixel 19 19 19 255;
                Pixel 20 19 19 255; pale_px]) 240
  = Image 2 2 [Pixel 255 255 255 0; Pixel 0 0 0 0; Pixel 20 19 19 255; pale_px].
Proof. vm_compute. reflexivity. Qed.

Example first_convert_edge :
  ProcessLogos.convert_orange_to_purple
    (Image 2 1 [Pixel 255 149 49 7; Pixel 255 149 50 7]) 50
  = Image 2 1 [Pixel 106 0 255 7; Pixel 255 149 50 7].
Proof. vm_compute. reflexivity. Qed.

Example int_of_float_truncates :
  Py.int_of_float 2.75%float = Some 2 ∧ Py.int_of_float (-2.75)%float = Some (-2) ∧
  Py.int_of_float 0%float = Some 0 ∧ Py.int_of_float infinity = None.
Proof. vm_compute. auto. Qed.

Example crop_sheet :
  crop sheet (0, 0, 2, 1)%nat = Image 2 1 [orange_px; sky_px] ∧
  crop sheet (2, 1, 4, 3)%nat
  = Image 2 2 [pale_px; Pixel 0 0 0 0; Pixel 0 0 0 0; Pixel 0 0 0 0].
Proof. vm_compute. auto. Qed.

Example path_join_cases :
  Os.path_join "logos" "icon.png" = "logos/icon.png"%string ∧
  Os.path_join "logos/" "icon.png" = "logos/icon.png"%string ∧
  Os.path_join "logos" "/tmp/icon.png" = "/tmp/icon.png"%string ∧
  Os.path_join "" "icon.png" = "icon.png"%string.
Proof. vm_compute. auto. Qed.

Example open_and_save_cases :
  Os.image_open (one_file "a.png" sheet) "a.png" = Some sheet ∧
  Os.image_open (one_file "a.png" sheet) "b.png" = None ∧
  Os.image_open {[ "a.png"%string := NoPicture ]} "a.png" = None ∧
  Os.path_exists {[ "a.png"%string := NoPicture ]} "a.png" = true ∧
  Os.image_save ∅ (Image 0 0 []) "a.png" = None ∧
  Os.image_save ∅ sheet "a.png" = Some (one_file "a.png" sheet).
Proof. vm_compute. auto 10. Qed.

Example main_on_an_empty_folder :
  ProcessLogos.main ∅ = Some ∅ ∧ ProcessLogosFixed.main ∅ = None.
Proof. vm_compute. auto. Qed.

Example first_convert_orange :
  ProcessLogos.convert_orange_to_purple (one_pixel orange_px) 50
  = one_pixel (Pixel 106 0 255 255).
Proof. vm_compute. reflexivity. Qed.

(** ** The range check is sound *)

Lemma all_from_spec (P : Z → bool) (n : nat) :
  ∀ lo, all_from P lo n = true → ∀ z, lo <= z < lo + Z.of_nat n → P z = true.
Proof.
  induction n as [|k IH]; intros lo Hall z Hz; [lia|].
  cbn [all_from] in Hall. apply andb_true_iff in Hall as [Hlo Hrest].
  destruct (Z.eq_dec z lo) as [->|Hne]; [assumption|].
  apply (IH (lo + 1)); [assumption | lia].
Qed.

Lemma all_in_range_spec (P : Z → bool) (lo hi : Z) :
  all_in_range P lo hi = true → ∀ z, lo <= z <= hi → P z = true.
Proof.
  intros Hall z Hz. apply (all_from_spec _ _ _ Hall). lia.
Qed.

(** ** The floating point steps, settled by running them *)

Lemma scale_chain_cont {A : Type} (s : Z) (k : Z → Z → Z → option A) :
  scale_chain s k = scale_chain s (λ r g b, Some (r, g, b)) ≫= (λ t, k t.1.1 t.1.2 t.2).
Proof.
  unfold scale_chain.
  destruct (Py.int_truediv s 3) as [br|]; cbn [mbind option_bind]; [|reflexivity].
  destruct (Py.float_truediv br 255%float) as [i|]; cbn [mbind option_bind];
    [|reflexivity].
  destruct (Py.int_of_float (Py.int_mul_float 106 i)); cbn [mbind option_bind];
    [|reflexivity].
  destruct (Py.int_of_float (Py.int_mul_float 0 i)); cbn [mbind option_bind];
    [|reflexivity].
  destruct (Py.int_of_float (Py.int_mul_float 255 i)); reflexivity.
Qed.

Lemma scale_chain_all : all_in_range scale_chain_exact 0 765 = true.
Proof. vm_compute. reflexivity. Qed.

Lemma scale_chain_eq {A : Type} (s : Z) (k : Z → Z → Z → option A) :
  0 <= s <= 765 → scale_chain s k = k (106 * s / 765) 0 (255 * s / 765).
Proof.
  intros Hs. rewrite scale_chain_cont.
  pose proof (all_in_range_spec _ _ _ scale_chain_all s Hs) as Hex.
  unfold scale_chain_exact in Hex.
  destruct (scale_chain s _) as [[[r g] b]|]; [|discriminate].
  apply andb_true_iff in Hex as [Hex Hb]. apply andb_true_iff in Hex as [Hr Hg].
  apply Z.eqb_eq in Hr, Hg, Hb. subst. reflexivity.
Qed.

Lemma dist_test_all : all_in_range dist_test_exact 0 152251 = true.
Proof. vm_compute. reflexivity. Qed.

Lemma dist_test_eq (n : Z) :
  0 <= n <= 152251 → Py.float_lt_int (Py.int_pow_half n) 50 = (n <? 50 ^ 2).
Proof.
  intros Hn. apply eqb_prop.
  exact (all_in_range_spec _ _ _ dist_test_all n Hn).
Qed.

(** ** The first version's loops are maps *)

Lemma foldl_snoc_fmap {A B : Type} (body : list B → A → list B) (f : A → B)
    (l : list A) :
  Forall (λ x, ∀ acc, body acc x = acc ++ [f x]) l →
  ∀ acc, foldl body acc l = acc ++ (f <$> l).
Proof.
  induction 1 as [|x l Hx _ IH]; intros acc; cbn [foldl fmap list_fmap].
  - symmetry. apply app_nil_r.
  - rewrite Hx, IH, <- app_assoc. reflexivity.
Qed.

Lemma putdata_fmap (f : pixel → pixel) (img : image) :
  putdata img (f <$> data img) = Image (width img) (height img) (f <$> data img).
Proof.
  unfold putdata. f_equal.
  rewrite length_fmap, drop_all, app_nil_r.
  apply take_ge. rewrite length_fmap. lia.
Qed.

Lemma orange_dist2_range (p : pixel) :
  valid_pixel p → 0 <= orange_dist2 p <= 152251.
Proof.
  unfold valid_pixel, channel, orange_dist2. intros (Hr & Hg & Hb & _).
  rewrite !Z.pow_2_r.
  assert (0 <= (red p - 255) * (red p - 255) <= 65025) by nia.
  assert (0 <= (green p - 149) * (green p - 149) <= 22201)
    by (destruct (Z.le_gt_cases 149 (green p)); nia).
  assert (0 <= (blue p - 0) * (blue p - 0) <= 65025) by nia.
  lia.
Qed.

Lemma color_distance_orange (p : pixel) :
  ProcessLogos.color_distance (red p, green p, blue p) ProcessLogos.ORANGE_COLOR
  = Py.int_pow_half (orange_dist2 p).
Proof.
  unfold ProcessLogos.color_distance, orange_dist2. reflexivity.
Qed.

Lemma first_remove_background_data (img : image) (t : Z) :
  ProcessLogos.remove_background img t
  = Image (width img) (height img) (background_px t 20 <$> data img).
Proof.
  unfold ProcessLogos.remove_background, convert_RGBA.
  rewrite (foldl_snoc_fmap _ (background_px t 20)).
  - apply putdata_fmap.
  - apply Forall_forall. intros p _ acc.
    unfold background_px, all_above, all_below.
    destruct (_ && _ && _); [reflexivity|]. destruct (_ && _ && _); reflexivity.
Qed.

Lemma first_convert_data (img : image) :
  Forall valid_pixel (data img) →
  ProcessLogos.convert_orange_to_purple img ProcessLogos.tolerance_default
  = Image (width img) (height img) (first_recolor_px <$> data img).
Proof.
  intros Hvalid.
  unfold ProcessLogos.convert_orange_to_purple, convert_RGBA.
  rewrite (foldl_snoc_fmap _ first_recolor_px).
  - apply putdata_fmap.
  - eapply Forall_impl; [exact Hvalid|]. intros p Hp acc.
    pose proof (color_distance_orange p) as Hd.
    destruct p as [r g b a]; cbn [red green blue] in Hd.
    rewrite Hd. unfold ProcessLogos.tolerance_default.
    rewrite (dist_test_eq _ (orange_dist2_range _ Hp)).
    unfold first_recolor_px. destruct (_ <? _); reflexivity.
Qed.

(** ** The fixed version's loops are maps *)

Lemma done_upto_lookup (f : pixel → pixel) (px0 : list pixel) (k : nat) :
  done_upto f px0 k !! k = px0 !! k.
Proof.
  unfold done_upto.
  destruct (decide (k < length px0)%nat) as [Hlt|Hge].
  - rewrite lookup_app_r; rewrite length_fmap, length_take; [|lia].
    rewrite lookup_drop. f_equal. lia.
  - rewrite (lookup_ge_None_2 px0) by lia. apply lookup_ge_None_2.
    rewrite length_app, length_fmap, length_take, length_drop. lia.
Qed.

Lemma done_upto_step (f : pixel → pixel) (px0 : list pixel) (k : nat) (p : pixel) :
  px0 !! k = Some p →
  <[k := f p]> (done_upto f px0 k) = done_upto f px0 (S k).
Proof.
  intros Hk. unfold done_upto.
  pose proof (lookup_lt_Some _ _ _ Hk) as Hlt.
  rewrite insert_app_r_alt; rewrite length_fmap, length_take; [|lia].
  replace (k - k `min` length px0)%nat with 0%nat by lia.
  rewrite (drop_S _ _ _ Hk), (take_S_r _ _ _ Hk), fmap_app, <- app_assoc.
  reflexivity.
Qed.

Lemma done_upto_0 (f : pixel → pixel) (px0 : list pixel) : done_upto f px0 0 = px0.
Proof. reflexivity. Qed.

Lemma done_upto_all (f : pixel → pixel) (px0 : list pixel) (k : nat) :
  (length px0 ≤ k)%nat → done_upto f px0 k = f <$> px0.
Proof.
  intros Hk. unfold done_upto.
  rewrite take_ge, drop_ge by lia. apply app_nil_r.
Qed.

Section PixelLoop.

Variables w h : nat.
(** The loop body at [(x, y)], the pixel function it applies, and what
    the pixels it meets are known to satisfy. *)
Variable body : nat → nat → list pixel → option (list pixel).
Variable f : pixel → pixel.
Variable Pre : pixel → Prop.

Hypothesis body_spec : ∀ x y px p,
  pixels_get w h px x y = Some p → Pre p →
  body x y px = Some (<[(y * w + x)%nat := f p]> px).

Variable px0 : list pixel.
Hypothesis px0_length : length px0 = (h * w)%nat.
Hypothesis px0_pre : Forall Pre px0.

Lemma row_loop (y : nat) :
  (y < h)%nat →
  ∀ n x0, (x0 + n = w)%nat →
    Py.for_each (seq x0 n) (λ x px, body x y px) (done_upto f px0 (y * w + x0))
    = Some (done_upto f px0 (y * w + w)).
Proof.
  intros Hy. induction n as [|n IH]; intros x0 Hx0; cbn [seq Py.for_each].
  - do 2 f_equal. lia.
  - assert (y * w + x0 < length px0)%nat as Hlt by nia.
    destruct (lookup_lt_is_Some_2 px0 _ Hlt) as [p Hp].
    rewrite (body_spec x0 y _ p).
    + cbn [mbind option_bind]. rewrite (done_upto_step _ _ _ _ Hp).
      replace (S (y * w + x0)) with (y * w + S x0)%nat by lia.
      apply IH. lia.
    + unfold pixels_get.
      rewrite (proj2 (Nat.ltb_lt x0 w)), (proj2 (Nat.ltb_lt y h)) by lia.
      cbn [andb]. rewrite done_upto_lookup. exact Hp.
    + exact (proj1 (Forall_lookup Pre px0) px0_pre _ _ Hp).
Qed.

Lemma rows_loop :
  ∀ n y0, (y0 + n = h)%nat →
    Py.for_each (seq y0 n)
      (λ y px, Py.for_each (Py.range w) (λ x px, body x y px) px)
      (done_upto f px0 (y0 * w))
    = Some (done_upto f px0 (h * w)).
Proof.
  unfold Py.range.
  induction n as [|n IH]; intros y0 Hy0; cbn [seq Py.for_each].
  - do 2 f_equal. nia.
  - pose proof (row_loop y0 ltac:(lia) w 0%nat eq_refl) as Hrow.
    rewrite Nat.add_0_r in Hrow. rewrite Hrow. cbn [mbind option_bind].
    replace (y0 * w + w)%nat with (S y0 * w)%nat by lia.
    apply IH. lia.
Qed.

Lemma pixel_loops :
  Py.for_each (Py.range h)
    (λ y px, Py.for_each (Py.range w) (λ x px, body x y px) px) px0
  = Some (f <$> px0).
Proof.
  pose proof (rows_loop h 0 ltac:(lia)) as Hloop.
  cbn [Nat.mul] in Hloop. rewrite done_upto_0 in Hloop.
  unfold Py.range at 1. rewrite Hloop.
  f_equal. apply done_upto_all. lia.
Qed.

End PixelLoop.

Lemma pixels_get_inv (w h : nat) (px : list pixel) (x y : nat) (p : pixel) :
  pixels_get w h px x y = Some p →
  ((x <? w) && (y <? h))%nat = true ∧ px !! (y * w + x)%nat = Some p.
Proof.
  unfold pixels_get. destruct (_ && _); [auto | discriminate].
Qed.

Lemma remove_bg_at_spec (t : Z) (w h x y : nat) (px : list pixel) (p : pixel) :
  pixels_get w h px x y = Some p →
  ProcessLogosFixed.remove_bg_at t w h x y px
  = Some (<[(y * w + x)%nat := background_px t 15 p]> px).
Proof.
  intros Hget. destruct (pixels_get_inv _ _ _ _ _ _ Hget) as [Hin Hp].
  unfold ProcessLogosFixed.remove_bg_at, pixels_set. rewrite Hget, Hin.
  cbn [mbind option_bind]. destruct p as [r g b a].
  unfold background_px, all_above, all_below; cbn [red green blue].
  destruct ((r >? t) && (g >? t) && (b >? t)); [reflexivity|].
  destruct ((r <? 15) && (g <? 15) && (b <? 15)); [reflexivity|].
  rewrite list_insert_id by exact Hp. reflexivity.
Qed.

Lemma convert_at_spec (w h x y : nat) (px : list pixel) (p : pixel) :
  pixels_get w h px x y = Some p → valid_pixel p →
  ProcessLogosFixed.convert_at w h x y px
  = Some (<[(y * w + x)%nat := fixed_recolor_px p]> px).
Proof.
  intros Hget Hvalid. destruct (pixels_get_inv _ _ _ _ _ _ Hget) as [Hin Hp].
  unfold ProcessLogosFixed.convert_at. rewrite Hget.
  cbn [mbind option_bind]. destruct p as [r g b a].
  unfold fixed_recolor_px, remapped, is_transparent, is_very_dark, is_very_light,
    is_blue_dominant, is_orange, all_above, all_below; cbn [red green blue alpha].
  destruct (a <? 10); cbn [negb andb];
    [rewrite list_insert_id by exact Hp; reflexivity|].
  destruct ((r <? 30) && (g <? 30) && (b <? 30)); cbn [negb andb];
    [rewrite list_insert_id by exact Hp; reflexivity|].
  destruct ((r >? 200) && (g >? 200) && (b >? 200)); cbn [negb andb];
    [rewrite list_insert_id by exact Hp; reflexivity|].
  destruct ((b >? r) && (b >? g)); cbn [negb andb];
    [rewrite list_insert_id by exact Hp; reflexivity|].
  destruct (ProcessLogosFixed.is_orange_tone r g b _);
    [|rewrite list_insert_id by exact Hp; reflexivity].
  change (scale_chain (r + g + b)
            (λ new_r new_g new_b,
               pixels_set w h px x y (Pixel new_r new_g new_b a))
          = Some (<[(y * w + x)%nat :=
                      Pixel (106 * (r + g + b) / 765) 0 (255 * (r + g + b) / 765) a]> px)).
  rewrite scale_chain_eq.
  - unfold pixels_set. rewrite Hin. reflexivity.
  - unfold valid_pixel, channel in Hvalid; cbn [red green blue alpha] in Hvalid. lia.
Qed.

Lemma fixed_remove_bg_data (img : image) (t : Z) :
  length (data img) = (height img * width img)%nat →
  ProcessLogosFixed.remove_bg_smart img t
  = Some (Image (width img) (height img) (background_px t 15 <$> data img)).
Proof.
  intros Hlen.
  unfold ProcessLogosFixed.remove_bg_smart, convert_RGBA, size.
  rewrite (pixel_loops (width img) (height img)
             (ProcessLogosFixed.remove_bg_at t (width img) (height img))
             (background_px t 15) (λ _, True)).
  - reflexivity.
  - intros x y px p Hget _. apply remove_bg_at_spec, Hget.
  - exact Hlen.
  - apply Forall_true. trivial.
Qed.

Lemma fixed_convert_data (img : image) :
  wf_image img →
  ProcessLogosFixed.convert_orange_to_purple img
  = Some (Image (width img) (height img) (fixed_recolor_px <$> data img)).
Proof.
  intros [Hlen Hvalid].
  unfold ProcessLogosFixed.convert_orange_to_purple, convert_RGBA, size.
  rewrite (pixel_loops (width img) (height img)
             (ProcessLogosFixed.convert_at (width img) (height img))
             fixed_recolor_px valid_pixel).
  - reflexivity.
  - intros x y px p. apply convert_at_spec.
  - exact Hlen.
  - exact Hvalid.
Qed.

(** ** Reading pixels of a mapped image *)

Lemma getpixel_map_image (f : pixel → pixel) (img : image) (x y : nat) :
  getpixel (map_image f img) x y = f <$> getpixel img x y.
Proof.
  unfold getpixel, map_image; cbn [width height data].
  destruct (_ && _); [apply list_lookup_fmap | reflexivity].
Qed.

Lemma background_px_valid (t d : Z) (p : pixel) :
  valid_pixel p → valid_pixel (background_px t d p).
Proof.
  intros Hp. unfold background_px.
  destruct (all_above t p); [unfold valid_pixel, channel; cbn; lia|].
  destruct (all_below d p); [unfold valid_pixel, channel; cbn; lia | exact Hp].
Qed.

Lemma wf_map_image (f : pixel → pixel) (img : image) :
  (∀ p, valid_pixel p → valid_pixel (f p)) →
  wf_image img → wf_image (map_image f img).
Proof.
  intros Hf [Hlen Hvalid]. split; cbn [map_image width height data].
  - rewrite length_fmap. exact Hlen.
  - apply Forall_fmap. eapply Forall_impl; [exact Hvalid|]. exact Hf.
Qed.

Lemma wf_imageb_true (img : image) : wf_imageb img = true → wf_image img.
Proof.
  unfold wf_imageb, wf_image. intros [Hlen Hall]%andb_true_iff. split.
  - apply Nat.eqb_eq, Hlen.
  - apply Forall_forall. intros p Hp%list_elem_of_In.
    rewrite forallb_forall in Hall. specialize (Hall p Hp).
    unfold valid_pixelb in Hall. cbn [forallb] in Hall.
    unfold valid_pixel, channel. lia.
Qed.

(** ** Brightness arithmetic *)

Lemma scaled_by_brightness_eq (t : Z) (p : pixel) :
  0 <= t → 0 <= red p + green p + blue p →
  scaled_by_brightness t p = t * (red p + green p + blue p) / 765.
Proof.
  intros Ht Hs. unfold scaled_by_brightness, brightness, Qtrunc.
  cbn [Qdiv Qinv inject_Z Qnum Qden Qmult Z.mul Pos.mul].
  change (Z.pos (1 * (3 * 255))) with 765. rewrite Z.mul_1_r.
  apply Z.quot_div_nonneg; nia.
Qed.

Lemma remapped_sum (p : pixel) :
  valid_pixel p → remapped p = true → 202 <= red p + green p + blue p <= 658.
Proof.
  unfold valid_pixel, channel, remapped, is_orange, ProcessLogosFixed.is_orange_tone.
  intros Hv H. repeat (apply andb_true_iff in H as [H ?]). lia.
Qed.

(** ** The guards of the fixed version, as propositions *)

Lemma remapped_true (p : pixel) :
  passes_guards p → orange_tone p → remapped p = true.
Proof.
  unfold passes_guards, orange_tone, remapped, is_transparent, is_very_dark,
    is_very_light, is_blue_dominant, is_orange, all_above, all_below,
    ProcessLogosFixed.is_orange_tone.
  intros (Ha & Hd & Hl & Hb) (H1 & H2 & H3 & H4 & H5).
  repeat (apply andb_true_intro; split); try apply negb_true_iff;
    try apply andb_false_iff; lia.
Qed.

Lemma skipped_not_remapped (p : pixel) : skipped p → remapped p = false.
Proof.
  unfold skipped, remapped, is_transparent, is_very_dark, is_very_light,
    is_blue_dominant, is_orange, all_above, all_below,
    ProcessLogosFixed.is_orange_tone.
  lia.
Qed.

Lemma fixed_recolor_remapped (p : pixel) :
  valid_pixel p → remapped p = true →
  fixed_recolor_px p = scaled_target ProcessLogosFixed.PURPLE_TARGET p.
Proof.
  intros Hv Hr. pose proof (remapped_sum p Hv Hr) as Hs.
  unfold fixed_recolor_px, scaled_target. rewrite Hr.
  cbn [ProcessLogosFixed.PURPLE_TARGET fst snd].
  rewrite !scaled_by_brightness_eq by lia.
  reflexivity.
Qed.

Lemma getpixel_valid (img : image) (x y : nat) (p : pixel) :
  wf_image img → getpixel img x y = Some p → valid_pixel p.
Proof.
  intros [_ Hvalid]. unfold getpixel. destruct (_ && _); [|discriminate].
  intros Hp. exact (proj1 (Forall_lookup _ _) Hvalid _ _ Hp).
Qed.

(** ** The fixed version's recolouring *)

(** C1: every pixel the fixed [convert_orange_to_purple] remaps (it passes the
    four guards and is an orange tone) comes out as the purple target
    (106, 0, 255) with each channel multiplied by the pixel's brightness
    [(r + g + b) / 3] over 255 and truncated to an integer; alpha is kept. *)
Theorem fixed_remap_scales_purple (img : image) (x y : nat) (p : pixel) :
  wf_image img → getpixel img x y = Some p →
  passes_guards p → orange_tone p →
  ∃ out, ProcessLogosFixed.convert_orange_to_purple img = Some out ∧
         getpixel out x y = Some (scaled_target (106, 0, 255) p).
Proof.
  intros Hwf Hget Hguards Horange.
  exists (map_image fixed_recolor_px img). split.
  - apply fixed_convert_data, Hwf.
  - rewrite getpixel_map_image, Hget. cbn [fmap option_fmap option_map]. f_equal.
    apply fixed_recolor_remapped.
    + exact (getpixel_valid _ _ _ _ Hwf Hget).
    + apply remapped_true; assumption.
Qed.

Lemma fixed_remap_scales_purple_witness :
  ∃ out, ProcessLogosFixed.convert_orange_to_purple (one_pixel orange_px) = Some out ∧
         getpixel out 0 0 = Some (scaled_target (106, 0, 255) orange_px).
Proof.
  apply (fixed_remap_scales_purple (one_pixel orange_px) 0 0 orange_px).
  - apply wf_imageb_true. reflexivity.
  - reflexivity.
  - unfold passes_guards; cbn; lia.
  - unfold orange_tone; cbn; lia.
Defined.

(** C2 as stated fails: the orange pixel (255, 149, 0, 255) is remapped to
    (55, 0, 134, 255), whose brightness 63 is not the input's 404 / 3. *)
Lemma fixed_remap_changes_brightness :
  passes_guards orange_px ∧ orange_tone orange_px ∧
  ProcessLogosFixed.convert_orange_to_purple (one_pixel orange_px)
    = Some (one_pixel (Pixel 55 0 134 255)) ∧
  ¬ (brightness (Pixel 55 0 134 255) == brightness orange_px)%Q.
Proof.
  split; [unfold passes_guards; cbn; lia|].
  split; [unfold orange_tone; cbn; lia|].
  split; [vm_compute; reflexivity|].
  unfold brightness, Qeq; cbn. lia.
Qed.

(** C2, amended: the remap carries the brightness into the blue channel.  For
    every pixel the fixed [convert_orange_to_purple] remaps, the blue channel
    of the output, which is the largest of its R, G, B, equals the input's
    brightness (the mean of R, G, B) truncated to an integer; the brightness
    of the output itself is strictly below the input's. *)
Theorem fixed_remap_brightness_to_blue (img : image) (x y : nat) (p : pixel) :
  wf_image img → getpixel img x y = Some p →
  passes_guards p → orange_tone p →
  ∃ out q, ProcessLogosFixed.convert_orange_to_purple img = Some out ∧
           getpixel out x y = Some q ∧
           blue q = Qtrunc (brightness p) ∧
           red q <= blue q ∧ green q <= blue q ∧
           (brightness q < brightness p)%Q.
Proof.
  intros Hwf Hget Hguards Horange.
  pose proof (getpixel_valid _ _ _ _ Hwf Hget) as Hv.
  pose proof (remapped_true _ Hguards Horange) as Hr.
  pose proof (remapped_sum p Hv Hr) as Hs.
  exists (map_image fixed_recolor_px img), (fixed_recolor_px p).
  split; [apply fixed_convert_data, Hwf|].
  split; [rewrite getpixel_map_image, Hget; reflexivity|].
  unfold fixed_recolor_px. rewrite Hr. cbn [red green blue alpha].
  set (s := red p + green p + blue p) in *.
  assert (255 * s / 765 = s / 3) as Hb.
  { replace (255 * s) with (s * 255) by lia.
    change 765 with (3 * 255). apply Z.div_mul_cancel_r; lia. }
  pose proof (Z.mul_div_le (106 * s) 765 ltac:(lia)) as Hred.
  pose proof (Z.mul_div_le s 3 ltac:(lia)) as Hblue.
  pose proof (Z.div_pos (106 * s) 765 ltac:(lia) ltac:(lia)) as Hred0.
  assert (106 * s / 765 <= s / 3) as Hrb.
  { apply Z.div_le_lower_bound; [lia|].
    pose proof (Z.mod_pos_bound (106 * s) 765 ltac:(lia)).
    pose proof (Z.div_mod (106 * s) 765 ltac:(lia)).
    pose proof (Z.mod_pos_bound s 3 ltac:(lia)).
    pose proof (Z.div_mod s 3 ltac:(lia)). lia. }
  repeat split.
  - rewrite Hb. unfold Qtrunc, brightness; cbn [Qnum Qden]. fold s.
    symmetry. apply Z.quot_div_nonneg; lia.
  - rewrite Hb. exact Hrb.
  - rewrite Hb. apply Z.div_pos; lia.
  - unfold Qlt, brightness; cbn [Qnum Qden red green blue]. fold s.
    rewrite Hb. lia.
Qed.

Lemma fixed_remap_brightness_to_blue_witness :
  ∃ out q, ProcessLogosFixed.convert_orange_to_purple (one_pixel orange_px) = Some out ∧
           getpixel out 0 0 = Some q ∧
           blue q = Qtrunc (brightness orange_px) ∧
           red q <= blue q ∧ green q <= blue q ∧
           (brightness q < brightness orange_px)%Q.
Proof.
  apply (fixed_remap_brightness_to_blue (one_pixel orange_px) 0 0 orange_px).
  - apply wf_imageb_true. reflexivity.
  - reflexivity.
  - unfold passes_guards; cbn; lia.
  - unfold orange_tone; cbn; lia.
Defined.

(** ** The first version's recolouring *)

Lemma orange_dist2_nonneg (p : pixel) : 0 <= orange_dist2 p.
Proof.
  unfold orange_dist2. rewrite !Z.pow_2_r.
  pose proof (Z.square_nonneg (red p - 255)).
  pose proof (Z.square_nonneg (green p - 149)).
  pose proof (Z.square_nonneg (blue p - 0)).
  lia.
Qed.

Lemma sqrt_2500 : R_sqrt.sqrt (IZR (50 ^ 2)) = 50%R.
Proof.
  change (50 ^ 2) with (50 * 50). rewrite mult_IZR.
  apply sqrt_square. lra.
Qed.

Lemma orange_distance_lt (p : pixel) :
  (orange_distance p < 50)%R ↔ orange_dist2 p < 50 ^ 2.
Proof.
  unfold orange_distance. pose proof (orange_dist2_nonneg p) as H0.
  rewrite <- sqrt_2500. split.
  - intros Hlt. destruct (Z.lt_ge_cases (orange_dist2 p) (50 ^ 2)) as [|Hge];
      [assumption|].
    apply IZR_le, sqrt_le_1_alt in Hge. lra.
  - intros Hlt. apply sqrt_lt_1_alt. split; [apply IZR_le, H0 | apply IZR_lt, Hlt].
Qed.

(** C3: the first [convert_orange_to_purple] (tolerance 50) puts the exact
    purple (106, 0, 255) with the pixel's own alpha wherever the Euclidean RGB
    distance to orange (255, 149, 0) is strictly below 50, and hands back
    unchanged every pixel at distance 50 or more. *)
Theorem first_convert_within_tolerance (img : image) (x y : nat) (p : pixel) :
  wf_image img → getpixel img x y = Some p →
  let out := ProcessLogos.convert_orange_to_purple img 50 in
  ((orange_distance p < 50)%R →
     getpixel out x y = Some (Pixel 106 0 255 (alpha p))) ∧
  ((50 <= orange_distance p)%R → getpixel out x y = Some p).
Proof.
  intros Hwf Hget out. subst out.
  change (ProcessLogos.convert_orange_to_purple img 50)
    with (ProcessLogos.convert_orange_to_purple img ProcessLogos.tolerance_default).
  rewrite (first_convert_data img (proj2 Hwf)).
  change (Image _ _ _) with (map_image first_recolor_px img).
  rewrite getpixel_map_image, Hget. cbn [fmap option_fmap option_map].
  unfold first_recolor_px. split; intros Hd.
  - apply orange_distance_lt in Hd. apply Z.ltb_lt in Hd. rewrite Hd. reflexivity.
  - destruct (orange_dist2 p <? 50 ^ 2) eqn:Hlt; [|reflexivity].
    apply Z.ltb_lt, orange_distance_lt in Hlt. lra.
Qed.

Lemma first_convert_within_tolerance_witness :
  let out := ProcessLogos.convert_orange_to_purple (one_pixel orange_px) 50 in
  ((orange_distance orange_px < 50)%R →
     getpixel out 0 0 = Some (Pixel 106 0 255 (alpha orange_px))) ∧
  ((50 <= orange_distance orange_px)%R → getpixel out 0 0 = Some orange_px).
Proof.
  apply (first_convert_within_tolerance (one_pixel orange_px) 0 0 orange_px).
  - apply wf_imageb_true. reflexivity.
  - reflexivity.
Defined.

(** ** Background removal *)

Lemma background_px_removed (d : Z) (p : pixel) :
  d <= 240 → background_removed d p (background_px 240 d p).
Proof.
  intros Hd. unfold background_removed, background_px, light_bg, dark_bg.
  destruct (all_above 240 p) eqn:Ha; [|destruct (all_below d p) eqn:Hb];
    unfold all_above, all_below in *;
    repeat split; intros; cbn [alpha] in *;
    try reflexivity; try (exfalso; lia); lia.
Qed.

(** C4 as stated fails: the pixel (255, 255, 230, 255) has brightness 740 / 3,
    above 240, and both versions hand it back opaque. *)
Lemma background_keeps_bright_pixel :
  (inject_Z 240 < brightness pale_px)%Q ∧
  ProcessLogos.remove_background (one_pixel pale_px) 240 = one_pixel pale_px ∧
  ProcessLogosFixed.remove_bg_smart (one_pixel pale_px) 240
    = Some (one_pixel pale_px) ∧
  alpha pale_px ≠ 0.
Proof.
  split; [unfold Qlt, brightness; cbn; lia|].
  split; [vm_compute; reflexivity|].
  split; [vm_compute; reflexivity|].
  cbn. lia.
Qed.

(** C4, amended: background removal tests the three colour channels one by
    one, not their mean.  A pixel becomes (255, 255, 255, 0) when all of R, G,
    B are above 240, and (0, 0, 0, 0) when all of them are below the dark
    threshold (20 in the first version, 15 in the fixed one); every other
    pixel keeps its RGBA values.  So a pixel that was not transparent already
    has alpha zero afterwards exactly when one of the two tests holds. *)
Theorem background_removal_per_channel (img : image) (x y : nat) (p : pixel) :
  wf_image img → getpixel img x y = Some p →
  (∃ q, getpixel (ProcessLogos.remove_background img 240) x y = Some q ∧
        background_removed 20 p q) ∧
  (∃ out q, ProcessLogosFixed.remove_bg_smart img 240 = Some out ∧
            getpixel out x y = Some q ∧ background_removed 15 p q).
Proof.
  intros [Hlen _] Hget. split.
  - exists (background_px 240 20 p). split.
    + rewrite first_remove_background_data.
      change (Image _ _ _) with (map_image (background_px 240 20) img).
      rewrite getpixel_map_image, Hget. reflexivity.
    + apply background_px_removed. lia.
  - exists (map_image (background_px 240 15) img), (background_px 240 15 p).
    split; [apply fixed_remove_bg_data, Hlen|]. split.
    + rewrite getpixel_map_image, Hget. reflexivity.
    + apply background_px_removed. lia.
Qed.

Lemma background_removal_per_channel_witness :
  (∃ q, getpixel (ProcessLogos.remove_background (one_pixel pale_px) 240) 0 0 = Some q ∧
        background_removed 20 pale_px q) ∧
  (∃ out q, ProcessLogosFixed.remove_bg_smart (one_pixel pale_px) 240 = Some out ∧
            getpixel out 0 0 = Some q ∧ background_removed 15 pale_px q).
Proof.
  apply (background_removal_per_channel (one_pixel pale_px) 0 0 pale_px).
  - apply wf_imageb_true. reflexivity.
  - reflexivity.
Defined.

(** ** Frame properties of the recolouring *)

(** C8: neither version of [convert_orange_to_purple] touches the alpha
    channel: at every coordinate the output pixel has the alpha of the input
    pixel, recoloured or not. *)
Theorem convert_keeps_alpha (img : image) (x y : nat) (p : pixel) :
  wf_image img → getpixel img x y = Some p →
  (∃ q, getpixel (ProcessLogos.convert_orange_to_purple img 50) x y = Some q ∧
        alpha q = alpha p) ∧
  (∃ out q, ProcessLogosFixed.convert_orange_to_purple img = Some out ∧
            getpixel out x y = Some q ∧ alpha q = alpha p).
Proof.
  intros Hwf Hget. split.
  - exists (first_recolor_px p). split.
    + change (ProcessLogos.convert_orange_to_purple img 50)
        with (ProcessLogos.convert_orange_to_purple img ProcessLogos.tolerance_default).
      rewrite (first_convert_data img (proj2 Hwf)).
      change (Image _ _ _) with (map_image first_recolor_px img).
      rewrite getpixel_map_image, Hget. reflexivity.
    + unfold first_recolor_px. destruct (_ <? _); reflexivity.
  - exists (map_image fixed_recolor_px img), (fixed_recolor_px p).
    split; [apply fixed_convert_data, Hwf|]. split.
    + rewrite getpixel_map_image, Hget. reflexivity.
    + unfold fixed_recolor_px. destruct (remapped p); reflexivity.
Qed.

Lemma convert_keeps_alpha_witness :
  (∃ q, getpixel (ProcessLogos.convert_orange_to_purple (one_pixel orange_px) 50) 0 0
          = Some q ∧ alpha q = alpha orange_px) ∧
  (∃ out q, ProcessLogosFixed.convert_orange_to_purple (one_pixel orange_px) = Some out ∧
            getpixel out 0 0 = Some q ∧ alpha q = alpha orange_px).
Proof.
  apply (convert_keeps_alpha (one_pixel orange_px) 0 0 orange_px).
  - apply wf_imageb_true. reflexivity.
  - reflexivity.
Defined.

(** C9: the fixed [convert_orange_to_purple] hands back unchanged every pixel
    with alpha below 10, every very dark pixel (R, G, B all below 30), every
    very light pixel (R, G, B all above 200) and every blue-dominant pixel
    (B above both R and G). *)
Theorem fixed_convert_skips (img : image) (x y : nat) (p : pixel) :
  wf_image img → getpixel img x y = Some p → skipped p →
  ∃ out, ProcessLogosFixed.convert_orange_to_purple img = Some out ∧
         getpixel out x y = Some p.
Proof.
  intros Hwf Hget Hskip.
  exists (map_image fixed_recolor_px img).
  split; [apply fixed_convert_data, Hwf|].
  rewrite getpixel_map_image, Hget. cbn [fmap option_fmap option_map].
  unfold fixed_recolor_px. rewrite (skipped_not_remapped p Hskip). reflexivity.
Qed.

Lemma fixed_convert_skips_witness :
  ∃ out, ProcessLogosFixed.convert_orange_to_purple (one_pixel sky_px) = Some out ∧
         getpixel out 0 0 = Some sky_px.
Proof.
  apply (fixed_convert_skips (one_pixel sky_px) 0 0 sky_px).
  - apply wf_imageb_true. reflexivity.
  - reflexivity.
  - unfold skipped; cbn; lia.
Defined.

(** ** Dimensions *)

Lemma same_dimensions_map (f : pixel → pixel) (img : image) :
  same_dimensions img (map_image f img).
Proof.
  unfold same_dimensions, map_image; cbn [width height data].
  rewrite length_fmap. auto.
Qed.

Lemma same_dimensions_trans (a b c : image) :
  same_dimensions a b → same_dimensions b c → same_dimensions a c.
Proof.
  unfold same_dimensions. intros (Hw1 & Hh1 & Hl1) (Hw2 & Hh2 & Hl2).
  repeat split; congruence.
Qed.

Lemma first_convert_data_tol (img : image) (tolerance : Z) :
  ProcessLogos.convert_orange_to_purple img tolerance
  = map_image (first_recolor_tol tolerance) img.
Proof.
  unfold ProcessLogos.convert_orange_to_purple, convert_RGBA.
  rewrite (foldl_snoc_fmap _ (first_recolor_tol tolerance)).
  - apply putdata_fmap.
  - apply Forall_forall. intros [r g b a] _ acc.
    unfold first_recolor_tol; cbn [red green blue alpha ProcessLogos.PURPLE_COLOR].
    destruct (Py.float_lt_int _ _); reflexivity.
Qed.

(** C10: [remove_background], [remove_bg_smart] and both versions of
    [convert_orange_to_purple] return an image of the width, the height and
    the number of pixels of their input. *)
Theorem transformations_keep_dimensions (img : image) (bg_threshold tolerance : Z) :
  wf_image img →
  same_dimensions img (ProcessLogos.remove_background img bg_threshold) ∧
  same_dimensions img (ProcessLogos.convert_orange_to_purple img tolerance) ∧
  (∃ out, ProcessLogosFixed.remove_bg_smart img bg_threshold = Some out ∧
          same_dimensions img out) ∧
  (∃ out, ProcessLogosFixed.convert_orange_to_purple img = Some out ∧
          same_dimensions img out).
Proof.
  intros Hwf. split; [|split; [|split]].
  - rewrite first_remove_background_data.
    apply (same_dimensions_map (background_px bg_threshold 20)).
  - rewrite first_convert_data_tol. apply same_dimensions_map.
  - eexists. split; [apply fixed_remove_bg_data, Hwf|].
    apply (same_dimensions_map (background_px bg_threshold 15)).
  - eexists. split; [apply fixed_convert_data, Hwf|].
    apply (same_dimensions_map fixed_recolor_px).
Qed.

Lemma transformations_keep_dimensions_witness :
  same_dimensions two_pixels (ProcessLogos.remove_background two_pixels 240) ∧
  same_dimensions two_pixels (ProcessLogos.convert_orange_to_purple two_pixels 50) ∧
  (∃ out, ProcessLogosFixed.remove_bg_smart two_pixels 240 = Some out ∧
          same_dimensions two_pixels out) ∧
  (∃ out, ProcessLogosFixed.convert_orange_to_purple two_pixels = Some out ∧
          same_dimensions two_pixels out).
Proof.
  apply (transformations_keep_dimensions two_pixels 240 50).
  apply wf_imageb_true. reflexivity.
Defined.

(** ** Pixel by pixel *)

(** C7: background removal and the orange-to-purple remap, in both versions,
    work pixel by pixel.  Wherever two input images hold pixels of equal RGBA
    values, at the same coordinate or at two different ones, the transformed
    images hold equal pixels there: the output depends on the pixel's own
    values only, not on its position or on its neighbours. *)
Theorem transformations_per_pixel (img1 img2 : image) (x1 y1 x2 y2 : nat)
    (p : pixel) :
  wf_image img1 → wf_image img2 →
  getpixel img1 x1 y1 = Some p → getpixel img2 x2 y2 = Some p →
  (∃ q, getpixel (ProcessLogos.remove_background img1 240) x1 y1 = Some q ∧
        getpixel (ProcessLogos.remove_background img2 240) x2 y2 = Some q) ∧
  (∃ q, getpixel (ProcessLogos.convert_orange_to_purple img1 50) x1 y1 = Some q ∧
        getpixel (ProcessLogos.convert_orange_to_purple img2 50) x2 y2 = Some q) ∧
  (∃ out1 out2 q,
     ProcessLogosFixed.remove_bg_smart img1 240 = Some out1 ∧
     ProcessLogosFixed.remove_bg_smart img2 240 = Some out2 ∧
     getpixel out1 x1 y1 = Some q ∧ getpixel out2 x2 y2 = Some q) ∧
  (∃ out1 out2 q,
     ProcessLogosFixed.convert_orange_to_purple img1 = Some out1 ∧
     ProcessLogosFixed.convert_orange_to_purple img2 = Some out2 ∧
     getpixel out1 x1 y1 = Some q ∧ getpixel out2 x2 y2 = Some q).
Proof.
  intros Hwf1 Hwf2 Hget1 Hget2. split; [|split; [|split]].
  - exists (background_px 240 20 p). rewrite !first_remove_background_data.
    change (Image (width img1) _ _) with (map_image (background_px 240 20) img1).
    change (Image (width img2) _ _) with (map_image (background_px 240 20) img2).
    rewrite !getpixel_map_image, Hget1, Hget2. split; reflexivity.
  - exists (first_recolor_tol 50 p). rewrite !first_convert_data_tol.
    rewrite !getpixel_map_image, Hget1, Hget2. split; reflexivity.
  - exists (map_image (background_px 240 15) img1),
      (map_image (background_px 240 15) img2), (background_px 240 15 p).
    split; [apply fixed_remove_bg_data, Hwf1|].
    split; [apply fixed_remove_bg_data, Hwf2|].
    rewrite !getpixel_map_image, Hget1, Hget2. split; reflexivity.
  - exists (map_image fixed_recolor_px img1), (map_image fixed_recolor_px img2),
      (fixed_recolor_px p).
    split; [apply fixed_convert_data, Hwf1|].
    split; [apply fixed_convert_data, Hwf2|].
    rewrite !getpixel_map_image, Hget1, Hget2. split; reflexivity.
Qed.

Lemma transformations_per_pixel_witness :
  (∃ q, getpixel (ProcessLogos.remove_background (one_pixel orange_px) 240) 0 0 = Some q ∧
        getpixel (ProcessLogos.remove_background two_pixels 240) 1 0 = Some q) ∧
  (∃ q, getpixel (ProcessLogos.convert_orange_to_purple (one_pixel orange_px) 50) 0 0
          = Some q ∧
        getpixel (ProcessLogos.convert_orange_to_purple two_pixels 50) 1 0 = Some q) ∧
  (∃ out1 out2 q,
     ProcessLogosFixed.remove_bg_smart (one_pixel orange_px) 240 = Some out1 ∧
     ProcessLogosFixed.remove_bg_smart two_pixels 240 = Some out2 ∧
     getpixel out1 0 0 = Some q ∧ getpixel out2 1 0 = Some q) ∧
  (∃ out1 out2 q,
     ProcessLogosFixed.convert_orange_to_purple (one_pixel orange_px) = Some out1 ∧
     ProcessLogosFixed.convert_orange_to_purple two_pixels = Some out2 ∧
     getpixel out1 0 0 = Some q ∧ getpixel out2 1 0 = Some q).
Proof.
  apply (transformations_per_pixel (one_pixel orange_px) two_pixels 0 0 1 0 orange_px).
  - apply wf_imageb_true. reflexivity.
  - apply wf_imageb_true. reflexivity.
  - reflexivity.
  - reflexivity.
Defined.

(** ** Cropping *)

Lemma length_bind_rows {A : Type} (g : nat → list A) (w : nat) :
  (∀ y, length (g y) = w) →
  ∀ n y0, length (seq y0 n ≫= g) = (n * w)%nat.
Proof.
  intros Hg. induction n as [|n IH]; intros y0; [reflexivity|].
  cbn [seq]. rewrite bind_cons, length_app, Hg, IH. lia.
Qed.

Lemma lookup_bind_rows {A : Type} (g : nat → list A) (w : nat) :
  (∀ y, length (g y) = w) →
  ∀ n y0 y x, (y < n)%nat → (x < w)%nat →
    (seq y0 n ≫= g) !! (y * w + x)%nat = g (y0 + y)%nat !! x.
Proof.
  intros Hg. induction n as [|n IH]; intros y0 y x Hy Hx; [lia|].
  cbn [seq]. rewrite bind_cons. destruct y as [|y].
  - rewrite lookup_app_l by (rewrite Hg; lia).
    rewrite Nat.add_0_r. reflexivity.
  - rewrite lookup_app_r by (rewrite Hg; lia). rewrite Hg.
    replace (S y * w + x - w)%nat with (y * w + x)%nat by lia.
    rewrite IH by lia. do 2 f_equal. lia.
Qed.

Lemma getpixel_crop (img : image) (x0 y0 x1 y1 x y : nat) :
  (x < x1 - x0)%nat → (y < y1 - y0)%nat →
  getpixel (crop img (x0, y0, x1, y1)) x y
  = Some (default (Pixel 0 0 0 0) (getpixel img (x0 + x) (y0 + y))).
Proof.
  intros Hx Hy. unfold getpixel at 1, crop; cbn [width height data].
  rewrite (proj2 (Nat.ltb_lt _ _) Hx), (proj2 (Nat.ltb_lt _ _) Hy). cbn [andb].
  rewrite (lookup_bind_rows _ (x1 - x0)); [| |exact Hy|exact Hx].
  2:{ intros y'. rewrite (length_bind_rows _ 1) by reflexivity. lia. }
  pose proof (lookup_bind_rows
                (λ x', [default (Pixel 0 0 0 0) (getpixel img (x0 + x') (y0 + (0 + y)))])
                1 (λ _, eq_refl) (x1 - x0) 0 x 0 Hx Nat.lt_0_1) as Hrow.
  rewrite Nat.mul_1_r, Nat.add_0_r in Hrow. rewrite Hrow. reflexivity.
Qed.

Lemma first_processed_dimensions (img : image) (cp : bool) :
  same_dimensions img (first_processed img cp).
Proof.
  assert (∀ t, same_dimensions img (ProcessLogos.remove_background img t)) as Hbg.
  { intros t. rewrite first_remove_background_data.
    apply (same_dimensions_map (background_px t 20)). }
  unfold first_processed. destruct cp; [|apply Hbg].
  eapply same_dimensions_trans; [apply Hbg|].
  rewrite first_convert_data_tol. apply same_dimensions_map.
Qed.

Lemma app_snoc_assoc {A : Type} (l1 l2 : list A) (x : A) :
  (l1 ++ l2) ++ [x] = l1 ++ l2 ++ [x].
Proof. symmetry. apply app_assoc. Qed.

Lemma first_open_steps (w : world) (filepath : string) (cp : bool) (img : image)
    (k : image → run unit) :
  Os.image_open (disk w) filepath = Some img →
  (img ← Run.image_open filepath;
   img ← Run.call BackgroundRemoved
           (λ img, Some (ProcessLogos.remove_background img
                           ProcessLogos.bg_threshold_default)) img;
   img ← (if cp
          then Run.call Remapped
                 (λ img, Some (ProcessLogos.convert_orange_to_purple img
                                 ProcessLogos.tolerance_default)) img
          else mret img);
   k img) w
  = k (first_processed img cp)
      (World (disk w) (log w ++ first_steps filepath img cp)).
Proof.
  intros Hopen.
  unfold mbind, run_bind, Run.bind, Run.image_open. rewrite Hopen.
  unfold Run.call, first_steps, remap_step, first_processed; cbn [disk log].
  destruct cp; unfold mret, run_ret, Run.ret; cbn [disk log];
    rewrite <- !app_assoc; reflexivity.
Qed.

Lemma process_single_icon_run (w : world) (filepath output_name : string)
    (cp : bool) (img : image) :
  Os.image_open (disk w) filepath = Some img →
  ProcessLogos.process_single_icon filepath output_name cp w
  = Run.image_save (first_processed img cp)
      (Os.path_join ProcessLogos.OUTPUT_DIR output_name)
      (World (disk w) (log w ++ first_steps filepath img cp)).
Proof.
  intros Hopen. unfold ProcessLogos.process_single_icon.
  exact (first_open_steps w filepath cp img _ Hopen).
Qed.

Lemma process_reference_sheet_run (w : world) (filepath base_name : string)
    (cp : bool) (img : image) :
  Os.image_open (disk w) filepath = Some img →
  ProcessLogos.process_reference_sheet filepath base_name cp w
  = let processed := first_processed img cp in
    let side := Nat.min (width processed / 3) (height processed / 2) in
    Run.image_save (first_icon img cp)
      (Os.path_join ProcessLogos.OUTPUT_DIR (base_name +:+ "-icon.png"))
      (World (disk w)
         (log w ++ first_steps filepath img cp
          ++ [Cropped processed (0, 0, side, side)%nat (first_icon img cp)])).
Proof.
  intros Hopen. unfold ProcessLogos.process_reference_sheet.
  rewrite (first_open_steps w filepath cp img _ Hopen).
  unfold size, mbind, run_bind, Run.bind, Run.call, first_icon; cbn [disk log].
  rewrite <- app_assoc. reflexivity.
Qed.



(** C6: for a reference sheet of width [w] and height [h],
    [process_reference_sheet] cuts out of the processed image the square of
    side [min (w // 3) (h // 2)] whose top-left corner is (0, 0); the square
    lies within the image, so each of its pixels is a pixel of the processed
    image.  The cut is the step before the save; the save writes the icon,
    unless the side is 0, when Pillow refuses the empty icon and the run
    raises with nothing written. *)
Theorem reference_sheet_icon (w : world) (filepath base_name : string)
    (convert_to_purple : bool) (img : image) :
  wf_image img → Os.image_open (disk w) filepath = Some img →
  let processed := first_processed img convert_to_purple in
  let side := Nat.min (width img / 3) (height img / 2) in
  let icon := crop processed (0, 0, side, side)%nat in
  let output_path :=
    Os.path_join ProcessLogos.OUTPUT_DIR (base_name +:+ "-icon.png") in
  let cropped :=
    log w ++ first_steps filepath img convert_to_purple
    ++ [Cropped processed (0, 0, side, side)%nat icon] in
  ((0 < side)%nat →
     ProcessLogos.process_reference_sheet filepath base_name convert_to_purple w
     = (Some tt, World (<[output_path := Picture icon]> (disk w))
                       (cropped ++ [Saved icon output_path]))) ∧
  (side = 0%nat →
     ProcessLogos.process_reference_sheet filepath base_name convert_to_purple w
     = (None, World (disk w) cropped)) ∧
  width icon = side ∧ height icon = side ∧
  (side ≤ width processed)%nat ∧ (side ≤ height processed)%nat ∧
  ∀ x y, (x < side)%nat → (y < side)%nat →
    is_Some (getpixel processed x y) ∧
    getpixel icon x y = getpixel processed x y.
Proof.
  intros Hwf Hopen processed side icon output_path cropped.
  destruct (first_processed_dimensions img convert_to_purple)
    as (Hw & Hh & Hlen). fold processed in Hw, Hh, Hlen.
  assert (side ≤ width img)%nat as Hsw.
  { subst side. pose proof (Nat.Div0.div_le_upper_bound (width img) 3 (width img)).
    lia. }
  assert (side ≤ height img)%nat as Hsh.
  { subst side. pose proof (Nat.Div0.div_le_upper_bound (height img) 2 (height img)).
    lia. }
  assert (ProcessLogos.process_reference_sheet filepath base_name convert_to_purple w
          = Run.image_save icon output_path (World (disk w) cropped)) as Hrun.
  { rewrite (process_reference_sheet_run w _ _ _ img Hopen).
    unfold first_icon. fold processed. cbv zeta. rewrite Hw, Hh. reflexivity. }
  assert (Os.is_empty icon = (side =? 0)%nat) as Hempty.
  { unfold Os.is_empty, icon, crop; cbn [width height].
    rewrite Nat.sub_0_r. apply orb_diag. }
  split; [|split].
  - intros Hside. rewrite Hrun.
    unfold Run.image_save, Os.image_save; cbn [disk log].
    rewrite Hempty, (proj2 (Nat.eqb_neq side 0)) by lia. reflexivity.
  - intros Hside. rewrite Hrun.
    unfold Run.image_save, Os.image_save; cbn [disk log].
    rewrite Hempty, (proj2 (Nat.eqb_eq side 0) Hside). reflexivity.
  - split; [cbn; lia|]. split; [cbn; lia|].
    split; [lia|]. split; [lia|].
    intros x y Hx Hy.
    assert (is_Some (getpixel processed x y)) as [q Hq].
    { unfold getpixel.
      rewrite (proj2 (Nat.ltb_lt x _)), (proj2 (Nat.ltb_lt y _)) by lia.
      cbn [andb]. apply lookup_lt_is_Some_2. destruct Hwf as [Hl _]. nia. }
    split; [eauto|].
    subst icon. rewrite getpixel_crop by lia. cbn [Nat.add]. rewrite Hq. reflexivity.
Qed.

Lemma reference_sheet_icon_witness :
  let w := World (one_file "sheet.png" sheet) [] in
  let processed := first_processed sheet true in
  let side := Nat.min (width sheet / 3) (height sheet / 2) in
  let icon := crop processed (0, 0, side, side)%nat in
  let output_path :=
    Os.path_join ProcessLogos.OUTPUT_DIR ("gargantua-purple" +:+ "-icon.png") in
  let cropped :=
    log w ++ first_steps "sheet.png" sheet true
    ++ [Cropped processed (0, 0, side, side)%nat icon] in
  ((0 < side)%nat →
     ProcessLogos.process_reference_sheet "sheet.png" "gargantua-purple" true w
     = (Some tt, World (<[output_path := Picture icon]> (disk w))
                       (cropped ++ [Saved icon output_path]))) ∧
  (side = 0%nat →
     ProcessLogos.process_reference_sheet "sheet.png" "gargantua-purple" true w
     = (None, World (disk w) cropped)) ∧
  width icon = side ∧ height icon = side ∧
  (side ≤ width processed)%nat ∧ (side ≤ height processed)%nat ∧
  ∀ x y, (x < side)%nat → (y < side)%nat →
    is_Some (getpixel processed x y) ∧
    getpixel icon x y = getpixel processed x y.
Proof.
  apply (reference_sheet_icon (World (one_file "sheet.png" sheet) []) "sheet.png"
           "gargantua-purple" true sheet).
  - apply wf_imageb_true. reflexivity.
  - reflexivity.
Defined.

(** ** The order of the steps *)





(** ** Further properties of the pixel transformations *)

Lemma first_remove_background_map (img : image) (t : Z) :
  ProcessLogos.remove_background img t = map_image (background_px t 20) img.
Proof. apply first_remove_background_data. Qed.

Lemma first_convert_map (img : image) :
  wf_image img →
  ProcessLogos.convert_orange_to_purple img 50 = map_image first_recolor_px img.
Proof. intros [_ Hvalid]. exact (first_convert_data img Hvalid). Qed.

Lemma fixed_remove_bg_map (img : image) (t : Z) :
  wf_image img →
  ProcessLogosFixed.remove_bg_smart img t = Some (map_image (background_px t 15) img).
Proof. intros [Hlen _]. exact (fixed_remove_bg_data img t Hlen). Qed.

Lemma fixed_convert_map (img : image) :
  wf_image img →
  ProcessLogosFixed.convert_orange_to_purple img
  = Some (map_image fixed_recolor_px img).
Proof. apply fixed_convert_data. Qed.

Lemma map_image_compose (f g : pixel → pixel) (img : image) :
  map_image f (map_image g img) = map_image (f ∘ g) img.
Proof.
  unfold map_image; cbn [width height data]. f_equal.
  symmetry. apply list_fmap_compose.
Qed.

Lemma map_image_ext (f g : pixel → pixel) (img : image) :
  (∀ p, valid_pixel p → f p = g p) → wf_image img →
  map_image f img = map_image g img.
Proof.
  intros Hfg [_ Hvalid]. unfold map_image. f_equal.
  apply Forall_fmap_ext. eapply Forall_impl; [exact Hvalid | exact Hfg].
Qed.

Lemma first_recolor_tol_valid (tolerance : Z) (p : pixel) :
  valid_pixel p → valid_pixel (first_recolor_tol tolerance p).
Proof.
  intros Hp. unfold first_recolor_tol. destruct (Py.float_lt_int _ _); [|exact Hp].
  unfold valid_pixel, channel in *; cbn [red green blue alpha]. lia.
Qed.

Lemma first_recolor_px_valid (p : pixel) :
  valid_pixel p → valid_pixel (first_recolor_px p).
Proof.
  intros Hp. unfold first_recolor_px. destruct (_ <? _); [|exact Hp].
  unfold valid_pixel, channel in *; cbn [red green blue alpha]. lia.
Qed.

Lemma fixed_recolor_px_valid (p : pixel) :
  valid_pixel p → valid_pixel (fixed_recolor_px p).
Proof.
  intros Hp. unfold fixed_recolor_px. destruct (remapped p); [|exact Hp].
  unfold valid_pixel, channel in *; cbn [red green blue alpha].
  set (s := red p + green p + blue p).
  assert (0 <= s <= 765) as Hs by (subst s; lia).
  pose proof (Z.div_pos (106 * s) 765 ltac:(lia) ltac:(lia)).
  pose proof (Z.div_pos (255 * s) 765 ltac:(lia) ltac:(lia)).
  pose proof (Z.div_le_upper_bound (106 * s) 765 255 ltac:(lia) ltac:(lia)).
  pose proof (Z.div_le_upper_bound (255 * s) 765 255 ltac:(lia) ltac:(lia)).
  lia.
Qed.

(** X1: the four transformations hand back an image Pillow can hold: as many
    pixels as its size says, every band of every pixel within 0..255. *)
Theorem transformations_keep_wellformed (img : image) (bg_threshold tolerance : Z) :
  wf_image img →
  wf_image (ProcessLogos.remove_background img bg_threshold) ∧
  wf_image (ProcessLogos.convert_orange_to_purple img tolerance) ∧
  (∃ out, ProcessLogosFixed.remove_bg_smart img bg_threshold = Some out ∧
          wf_image out) ∧
  (∃ out, ProcessLogosFixed.convert_orange_to_purple img = Some out ∧
          wf_image out).
Proof.
  intros Hwf. split; [|split; [|split]].
  - rewrite first_remove_background_map.
    apply wf_map_image; [apply background_px_valid | exact Hwf].
  - rewrite first_convert_data_tol.
    apply wf_map_image; [apply first_recolor_tol_valid | exact Hwf].
  - eexists. split; [apply fixed_remove_bg_map, Hwf|].
    apply wf_map_image; [apply background_px_valid | exact Hwf].
  - eexists. split; [apply fixed_convert_map, Hwf|].
    apply wf_map_image; [apply fixed_recolor_px_valid | exact Hwf].
Qed.

Lemma transformations_keep_wellformed_witness :
  wf_image (ProcessLogos.remove_background sheet 240) ∧
  wf_image (ProcessLogos.convert_orange_to_purple sheet 50) ∧
  (∃ out, ProcessLogosFixed.remove_bg_smart sheet 240 = Some out ∧ wf_image out) ∧
  (∃ out, ProcessLogosFixed.convert_orange_to_purple sheet = Some out ∧ wf_image out).
Proof.
  apply (transformations_keep_wellformed sheet 240 50).
  apply wf_imageb_true. reflexivity.
Defined.

Lemma background_px_idempotent (t d : Z) (p : pixel) :
  0 <= t < 255 → 0 < d →
  background_px t d (background_px t d p) = background_px t d p.
Proof.
  intros Ht Hd. unfold background_px.
  destruct (all_above t p) eqn:Ha.
  - replace (all_above t (Pixel 255 255 255 0)) with true; [reflexivity|].
    unfold all_above; cbn [red green blue]. lia.
  - destruct (all_below d p) eqn:Hb.
    + replace (all_above t (Pixel 0 0 0 0)) with false
        by (unfold all_above; cbn [red green blue]; lia).
      replace (all_below d (Pixel 0 0 0 0)) with true; [reflexivity|].
      unfold all_below; cbn [red green blue]. lia.
    + rewrite Ha, Hb. reflexivity.
Qed.

(** X2: background removal is idempotent in both versions, for any light
    threshold in 0..254: a second pass over its own output changes
    nothing. *)
Theorem background_removal_idempotent (img : image) (bg_threshold : Z) :
  wf_image img → 0 <= bg_threshold < 255 →
  ProcessLogos.remove_background
    (ProcessLogos.remove_background img bg_threshold) bg_threshold
  = ProcessLogos.remove_background img bg_threshold ∧
  ∃ out, ProcessLogosFixed.remove_bg_smart img bg_threshold = Some out ∧
         ProcessLogosFixed.remove_bg_smart out bg_threshold = Some out.
Proof.
  intros Hwf Ht. split.
  - rewrite !first_remove_background_map, map_image_compose.
    apply map_image_ext; [|exact Hwf].
    intros p _. apply background_px_idempotent; lia.
  - exists (map_image (background_px bg_threshold 15) img).
    split; [apply fixed_remove_bg_map, Hwf|].
    rewrite fixed_remove_bg_map
      by (apply wf_map_image; [apply background_px_valid | exact Hwf]).
    f_equal. rewrite map_image_compose.
    apply map_image_ext; [|exact Hwf].
    intros p _. apply background_px_idempotent; lia.
Qed.

Lemma background_removal_idempotent_witness :
  ProcessLogos.remove_background (ProcessLogos.remove_background sheet 240) 240
  = ProcessLogos.remove_background sheet 240 ∧
  ∃ out, ProcessLogosFixed.remove_bg_smart sheet 240 = Some out ∧
         ProcessLogosFixed.remove_bg_smart out 240 = Some out.
Proof.
  apply (background_removal_idempotent sheet 240).
  - apply wf_imageb_true. reflexivity.
  - lia.
Defined.

Lemma first_recolor_px_idempotent (p : pixel) :
  first_recolor_px (first_recolor_px p) = first_recolor_px p.
Proof.
  unfold first_recolor_px at 2 3. destruct (orange_dist2 p <? 50 ^ 2) eqn:Hd.
  - reflexivity.
  - unfold first_recolor_px. rewrite Hd. reflexivity.
Qed.

Lemma remapped_fixed_recolor (p : pixel) : remapped (fixed_recolor_px p) = false.
Proof.
  unfold fixed_recolor_px. destruct (remapped p) eqn:Hr; [|exact Hr].
  unfold remapped, is_orange, ProcessLogosFixed.is_orange_tone;
    cbn [red green blue alpha].
  rewrite !andb_false_r. reflexivity.
Qed.

Lemma fixed_recolor_px_idempotent (p : pixel) :
  fixed_recolor_px (fixed_recolor_px p) = fixed_recolor_px p.
Proof.
  unfold fixed_recolor_px at 1. rewrite remapped_fixed_recolor. reflexivity.
Qed.

(** X3: both versions of [convert_orange_to_purple] are idempotent: the
    purple they write is not taken for orange by a second pass. *)
Theorem convert_idempotent (img : image) :
  wf_image img →
  ProcessLogos.convert_orange_to_purple
    (ProcessLogos.convert_orange_to_purple img 50) 50
  = ProcessLogos.convert_orange_to_purple img 50 ∧
  ∃ out, ProcessLogosFixed.convert_orange_to_purple img = Some out ∧
         ProcessLogosFixed.convert_orange_to_purple out = Some out.
Proof.
  intros Hwf. split.
  - rewrite (first_convert_map img Hwf).
    rewrite first_convert_map
      by (apply wf_map_image; [apply first_recolor_px_valid | exact Hwf]).
    rewrite map_image_compose. apply map_image_ext; [|exact Hwf].
    intros p _. apply first_recolor_px_idempotent.
  - exists (map_image fixed_recolor_px img).
    split; [apply fixed_convert_map, Hwf|].
    rewrite fixed_convert_map
      by (apply wf_map_image; [apply fixed_recolor_px_valid | exact Hwf]).
    f_equal. rewrite map_image_compose. apply map_image_ext; [|exact Hwf].
    intros p _. apply fixed_recolor_px_idempotent.
Qed.

Lemma convert_idempotent_witness :
  ProcessLogos.convert_orange_to_purple
    (ProcessLogos.convert_orange_to_purple sheet 50) 50
  = ProcessLogos.convert_orange_to_purple sheet 50 ∧
  ∃ out, ProcessLogosFixed.convert_orange_to_purple sheet = Some out ∧
         ProcessLogosFixed.convert_orange_to_purple out = Some out.
Proof.
  apply (convert_idempotent sheet).
  apply wf_imageb_true. reflexivity.
Defined.

Lemma orange_dist2_near (p : pixel) :
  orange_dist2 p < 50 ^ 2 →
  205 < red p ∧ 99 < green p < 199 ∧ -50 < blue p < 50.
Proof.
  unfold orange_dist2. rewrite !Z.pow_2_r. intros Hd.
  pose proof (Z.square_nonneg (red p - 255)).
  pose proof (Z.square_nonneg (green p - 149)).
  pose proof (Z.square_nonneg (blue p - 0)).
  repeat split; nia.
Qed.

Lemma first_recolor_background_commute (p : pixel) :
  first_recolor_px (background_px 240 20 p)
  = background_px 240 20 (first_recolor_px p).
Proof.
  unfold first_recolor_px at 2. destruct (orange_dist2 p <? 50 ^ 2) eqn:Hd.
  - pose proof (orange_dist2_near p ltac:(lia)) as (Hr & Hg & Hb).
    assert (all_above 240 p = false) as Ha by (unfold all_above; lia).
    assert (all_below 20 p = false) as Hbl by (unfold all_below; lia).
    unfold background_px at 1. rewrite Ha, Hbl.
    unfold first_recolor_px. rewrite Hd. reflexivity.
  - unfold background_px.
    destruct (all_above 240 p); [reflexivity|].
    destruct (all_below 20 p); [reflexivity|].
    unfold first_recolor_px. rewrite Hd. reflexivity.
Qed.

Lemma fixed_recolor_background_commute (p : pixel) :
  valid_pixel p →
  fixed_recolor_px (background_px 240 15 p)
  = background_px 240 15 (fixed_recolor_px p).
Proof.
  intros Hv. unfold fixed_recolor_px at 2. destruct (remapped p) eqn:Hr.
  - pose proof (remapped_sum p Hv Hr) as Hs.
    assert (all_above 240 p = false ∧ all_below 15 p = false) as [Ha Hb].
    { unfold remapped, is_orange, ProcessLogosFixed.is_orange_tone,
        all_above, all_below in *. lia. }
    unfold background_px at 1. rewrite Ha, Hb.
    unfold fixed_recolor_px. rewrite Hr.
    set (s := red p + green p + blue p) in *.
    pose proof (Z.div_le_lower_bound (255 * s) 765 67 ltac:(lia) ltac:(lia)).
    unfold background_px, all_above, all_below; cbn [red green blue].
    replace ((106 * s / 765 >? 240) && (0 >? 240) && (255 * s / 765 >? 240))
      with false by lia.
    replace ((106 * s / 765 <? 15) && (0 <? 15) && (255 * s / 765 <? 15))
      with false by lia.
    reflexivity.
  - unfold background_px.
    destruct (all_above 240 p); [reflexivity|].
    destruct (all_below 15 p); [reflexivity|].
    unfold fixed_recolor_px. rewrite Hr. reflexivity.
Qed.

(** X4: in both versions background removal and the remap commute: the
    pixels one of them rewrites are left alone by the other, so either order
    of the two steps gives the same image. *)
Theorem background_and_remap_commute (img : image) :
  wf_image img →
  ProcessLogos.convert_orange_to_purple (ProcessLogos.remove_background img 240) 50
  = ProcessLogos.remove_background (ProcessLogos.convert_orange_to_purple img 50) 240 ∧
  ∃ bg purple out,
    ProcessLogosFixed.remove_bg_smart img 240 = Some bg ∧
    ProcessLogosFixed.convert_orange_to_purple img = Some purple ∧
    ProcessLogosFixed.convert_orange_to_purple bg = Some out ∧
    ProcessLogosFixed.remove_bg_smart purple 240 = Some out.
Proof.
  intros Hwf.
  assert (wf_image (map_image (background_px 240 15) img)) as Hwfb
    by (apply wf_map_image; [apply background_px_valid | exact Hwf]).
  assert (wf_image (map_image fixed_recolor_px img)) as Hwfc
    by (apply wf_map_image; [apply fixed_recolor_px_valid | exact Hwf]).
  split.
  - rewrite (first_convert_map img Hwf), !first_remove_background_map.
    rewrite first_convert_map
      by (apply wf_map_image; [apply background_px_valid | exact Hwf]).
    rewrite !map_image_compose. apply map_image_ext; [|exact Hwf].
    intros p _. apply first_recolor_background_commute.
  - exists (map_image (background_px 240 15) img), (map_image fixed_recolor_px img),
      (map_image (fixed_recolor_px ∘ background_px 240 15) img).
    split; [apply fixed_remove_bg_map, Hwf|].
    split; [apply fixed_convert_map, Hwf|].
    split.
    + rewrite (fixed_convert_map _ Hwfb), map_image_compose. reflexivity.
    + rewrite (fixed_remove_bg_map _ _ Hwfc), map_image_compose. f_equal.
      apply map_image_ext; [|exact Hwf].
      intros p Hp. symmetry. apply fixed_recolor_background_commute, Hp.
Qed.

Lemma background_and_remap_commute_witness :
  ProcessLogos.convert_orange_to_purple (ProcessLogos.remove_background sheet 240) 50
  = ProcessLogos.remove_background (ProcessLogos.convert_orange_to_purple sheet 50) 240 ∧
  ∃ bg purple out,
    ProcessLogosFixed.remove_bg_smart sheet 240 = Some bg ∧
    ProcessLogosFixed.convert_orange_to_purple sheet = Some purple ∧
    ProcessLogosFixed.convert_orange_to_purple bg = Some out ∧
    ProcessLogosFixed.remove_bg_smart purple 240 = Some out.
Proof.
  apply (background_and_remap_commute sheet).
  apply wf_imageb_true. reflexivity.
Defined.

(** X5: [color_distance] is symmetric, and the distance from a colour to
    itself is [0.0]. *)
Theorem color_distance_symmetric (c1 c2 : Z * Z * Z) :
  ProcessLogos.color_distance c1 c2 = ProcessLogos.color_distance c2 c1 ∧
  ProcessLogos.color_distance c1 c1 = 0%float.
Proof.
  destruct c1 as [[r1 g1] b1], c2 as [[r2 g2] b2].
  unfold ProcessLogos.color_distance.
  cbn [ProcessLogos.elems zip_with fmap list_fmap foldl fst snd]. split.
  - f_equal. rewrite !Z.pow_2_r. ring.
  - rewrite !Z.sub_diag. reflexivity.
Qed.

(** X6: the fixed remap keeps the order of brightness: of two remapped
    pixels of an image, the brighter one gets the red and the blue channel
    that are at least as large; green is 0 for both. *)
Theorem fixed_remap_monotone (img : image) (x1 y1 x2 y2 : nat) (p1 p2 : pixel) :
  wf_image img →
  getpixel img x1 y1 = Some p1 → getpixel img x2 y2 = Some p2 →
  passes_guards p1 → orange_tone p1 → passes_guards p2 → orange_tone p2 →
  (brightness p1 <= brightness p2)%Q →
  ∃ out q1 q2,
    ProcessLogosFixed.convert_orange_to_purple img = Some out ∧
    getpixel out x1 y1 = Some q1 ∧ getpixel out x2 y2 = Some q2 ∧
    red q1 <= red q2 ∧ green q1 = 0 ∧ green q2 = 0 ∧ blue q1 <= blue q2.
Proof.
  intros Hwf Hg1 Hg2 Hp1 Ho1 Hp2 Ho2 Hb.
  exists (map_image fixed_recolor_px img), (fixed_recolor_px p1), (fixed_recolor_px p2).
  split; [apply fixed_convert_map, Hwf|].
  split; [rewrite getpixel_map_image, Hg1; reflexivity|].
  split; [rewrite getpixel_map_image, Hg2; reflexivity|].
  unfold fixed_recolor_px.
  rewrite (remapped_true p1 Hp1 Ho1), (remapped_true p2 Hp2 Ho2).
  cbn [red green blue].
  unfold Qle, brightness in Hb; cbn [Qnum Qden] in Hb.
  repeat split; apply Z.div_le_mono; lia.
Qed.

Lemma fixed_remap_monotone_witness :
  ∃ out q1 q2,
    ProcessLogosFixed.convert_orange_to_purple
      (Image 2 1 [dim_orange_px; orange_px]) = Some out ∧
    getpixel out 0 0 = Some q1 ∧ getpixel out 1 0 = Some q2 ∧
    red q1 <= red q2 ∧ green q1 = 0 ∧ green q2 = 0 ∧ blue q1 <= blue q2.
Proof.
  apply (fixed_remap_monotone (Image 2 1 [dim_orange_px; orange_px]) 0 0 1 0
           dim_orange_px orange_px).
  - apply wf_imageb_true. reflexivity.
  - reflexivity.
  - reflexivity.
  - unfold passes_guards; cbn; lia.
  - unfold orange_tone; cbn; lia.
  - unfold passes_guards; cbn; lia.
  - unfold orange_tone; cbn; lia.
  - unfold Qle, brightness; cbn; lia.
Defined.

(** X7: the fixed remap never writes the target colour itself: a remapped
    pixel comes out with red in 27..91, green 0 and blue in 67..219, so it is
    always darker than (106, 0, 255). *)
Theorem fixed_remap_range (img : image) (x y : nat) (p : pixel) :
  wf_image img → getpixel img x y = Some p →
  passes_guards p → orange_tone p →
  ∃ out q, ProcessLogosFixed.convert_orange_to_purple img = Some out ∧
           getpixel out x y = Some q ∧
           27 <= red q <= 91 ∧ green q = 0 ∧ 67 <= blue q <= 219.
Proof.
  intros Hwf Hget Hguards Horange.
  pose proof (getpixel_valid _ _ _ _ Hwf Hget) as Hv.
  pose proof (remapped_true _ Hguards Horange) as Hr.
  pose proof (remapped_sum p Hv Hr) as Hs.
  exists (map_image fixed_recolor_px img), (fixed_recolor_px p).
  split; [apply fixed_convert_map, Hwf|].
  split; [rewrite getpixel_map_image, Hget; reflexivity|].
  unfold fixed_recolor_px. rewrite Hr. cbn [red green blue].
  set (s := red p + green p + blue p) in *.
  pose proof (Z.div_le_lower_bound (106 * s) 765 27 ltac:(lia) ltac:(lia)).
  pose proof (Z.div_le_lower_bound (255 * s) 765 67 ltac:(lia) ltac:(lia)).
  pose proof (Z.div_lt_upper_bound (106 * s) 765 92 ltac:(lia) ltac:(lia)).
  pose proof (Z.div_lt_upper_bound (255 * s) 765 220 ltac:(lia) ltac:(lia)).
  lia.
Qed.

Lemma fixed_remap_range_witness :
  ∃ out q, ProcessLogosFixed.convert_orange_to_purple (one_pixel orange_px) = Some out ∧
           getpixel out 0 0 = Some q ∧
           27 <= red q <= 91 ∧ green q = 0 ∧ 67 <= blue q <= 219.
Proof.
  apply (fixed_remap_range (one_pixel orange_px) 0 0 orange_px).
  - apply wf_imageb_true. reflexivity.
  - reflexivity.
  - unfold passes_guards; cbn; lia.
  - unfold orange_tone; cbn; lia.
Defined.

(** X8: the two versions of background removal differ on one band of pixels
    only, those with R, G, B all below 20 but not all below 15: the first
    version makes them transparent black, the fixed version keeps them.
    Everywhere else the two give the same pixel. *)
Theorem background_versions_differ (img : image) (x y : nat) (p : pixel) :
  wf_image img → getpixel img x y = Some p →
  ∃ out q1 q2,
    getpixel (ProcessLogos.remove_background img 240) x y = Some q1 ∧
    ProcessLogosFixed.remove_bg_smart img 240 = Some out ∧
    getpixel out x y = Some q2 ∧
    (dark_bg 20 p ∧ ¬ dark_bg 15 p → q1 = Pixel 0 0 0 0 ∧ q2 = p) ∧
    (¬ (dark_bg 20 p ∧ ¬ dark_bg 15 p) → q1 = q2).
Proof.
  intros Hwf Hget.
  exists (map_image (background_px 240 15) img),
    (background_px 240 20 p), (background_px 240 15 p).
  split; [rewrite first_remove_background_map, getpixel_map_image, Hget;
          reflexivity|].
  split; [apply fixed_remove_bg_map, Hwf|].
  split; [rewrite getpixel_map_image, Hget; reflexivity|].
  unfold dark_bg, background_px.
  destruct (all_above 240 p) eqn:Ha, (all_below 20 p) eqn:H20,
    (all_below 15 p) eqn:H15;
    unfold all_above, all_below in *; split; intros H;
    try reflexivity; try (split; reflexivity); exfalso; lia.
Qed.

Lemma background_versions_differ_witness :
  ∃ out q1 q2,
    getpixel (ProcessLogos.remove_background (one_pixel glow_px) 240) 0 0 = Some q1 ∧
    ProcessLogosFixed.remove_bg_smart (one_pixel glow_px) 240 = Some out ∧
    getpixel out 0 0 = Some q2 ∧
    (dark_bg 20 glow_px ∧ ¬ dark_bg 15 glow_px → q1 = Pixel 0 0 0 0 ∧ q2 = glow_px) ∧
    (¬ (dark_bg 20 glow_px ∧ ¬ dark_bg 15 glow_px) → q1 = q2).
Proof.
  apply (background_versions_differ (one_pixel glow_px) 0 0 glow_px).
  - apply wf_imageb_true. reflexivity.
  - reflexivity.
Defined.

(** ** Loops over a table *)

Lemma for_each_app {A S : Type} (l1 l2 : list A) (body : A → S → option S) (s : S) :
  Py.for_each (l1 ++ l2) body s = Py.for_each l1 body s ≫= Py.for_each l2 body.
Proof.
  revert s. induction l1 as [|x l1 IH]; intros s; cbn [app Py.for_each].
  - reflexivity.
  - destruct (body x s) as [s'|]; cbn [mbind option_bind]; [apply IH | reflexivity].
Qed.

Lemma for_each_fmap {A B S : Type} (f : A → B) (l : list A)
    (body : B → S → option S) (s : S) :
  Py.for_each (f <$> l) body s = Py.for_each l (λ a, body (f a)) s.
Proof.
  revert s. induction l as [|x l IH]; intros s; cbn [fmap list_fmap Py.for_each].
  - reflexivity.
  - destruct (body (f x) s) as [s'|]; cbn [mbind option_bind];
      [apply IH | reflexivity].
Qed.

Lemma for_each_ext {A S : Type} (l : list A) (body1 body2 : A → S → option S) :
  (∀ a s, body1 a s = body2 a s) →
  ∀ s, Py.for_each l body1 s = Py.for_each l body2 s.
Proof.
  intros Hext. induction l as [|x l IH]; intros s; cbn [Py.for_each].
  - reflexivity.
  - rewrite Hext. destruct (body2 x s) as [s'|]; cbn [mbind option_bind];
      [apply IH | reflexivity].
Qed.

(** ** The tables of [main] as jobs *)

Lemma path_exists_lookup (fs : files) (path : string) :
  Os.path_exists fs path = match fs !! path with Some _ => true | None => false end.
Proof.
  unfold Os.path_exists. destruct (fs !! path) as [f|].
  - apply bool_decide_eq_true. eauto.
  - apply bool_decide_eq_false. intros [f Hf]. discriminate.
Qed.

Lemma exec_save (fs : files) (l : list event) (img : image) (path : string) :
  match Run.image_save img path (World fs l) with
  | (Some _, w) => Some (disk w)
  | (None, _) => None
  end = Os.image_save fs img path.
Proof.
  unfold Run.image_save; cbn [disk log].
  destruct (Os.image_save fs img path); reflexivity.
Qed.

Lemma exec_single_icon (fs : files) (filepath output_name : string) (cp : bool) :
  Run.exec (ProcessLogos.process_single_icon filepath output_name cp) fs
  = img ← Os.image_open fs filepath;
    Os.image_save fs (first_processed img cp)
      (Os.path_join ProcessLogos.OUTPUT_DIR output_name).
Proof.
  unfold Run.exec. destruct (Os.image_open fs filepath) as [img|] eqn:Hopen.
  - rewrite (process_single_icon_run (World fs []) _ _ _ img Hopen).
    apply exec_save.
  - unfold ProcessLogos.process_single_icon, mbind, run_bind, Run.bind,
      Run.image_open; cbn [disk log]. rewrite Hopen. reflexivity.
Qed.

Lemma exec_reference_sheet (fs : files) (filepath base_name : string) (cp : bool) :
  Run.exec (ProcessLogos.process_reference_sheet filepath base_name cp) fs
  = img ← Os.image_open fs filepath;
    Os.image_save fs (first_icon img cp)
      (Os.path_join ProcessLogos.OUTPUT_DIR (base_name +:+ "-icon.png")).
Proof.
  unfold Run.exec. destruct (Os.image_open fs filepath) as [img|] eqn:Hopen.
  - rewrite (process_reference_sheet_run (World fs []) _ _ _ img Hopen).
    apply exec_save.
  - unfold ProcessLogos.process_reference_sheet, mbind, run_bind, Run.bind,
      Run.image_open; cbn [disk log]. rewrite Hopen. reflexivity.
Qed.

Lemma exec_logo (fs : files) (source_file output_name : string) (cp rb : bool) :
  Run.exec (ProcessLogosFixed.process_logo source_file output_name cp rb) fs
  = img ← Os.image_open fs (Os.path_join ProcessLogosFixed.SOURCE_DIR source_file);
    img' ← fixed_processed cp rb img;
    Os.image_save fs img' (Os.path_join ProcessLogosFixed.OUTPUT_DIR output_name).
Proof.
  unfold Run.exec, ProcessLogosFixed.process_logo, mbind at 1 2 3, run_bind,
    Run.bind, Run.image_open, fixed_processed; cbn [disk log].
  destruct (Os.image_open fs _) as [img|]; cbn [mbind option_bind disk log];
    [|reflexivity].
  unfold Run.call, mret, run_ret, Run.ret.
  destruct rb; cbn [disk log].
  - destruct (ProcessLogosFixed.remove_bg_smart img _) as [bg|];
      cbn [mbind option_bind disk log]; [|reflexivity].
    destruct cp; cbn [disk log].
    + destruct (ProcessLogosFixed.convert_orange_to_purple bg) as [out|];
        cbn [mbind option_bind disk log]; [apply exec_save | reflexivity].
    + apply exec_save.
  - cbn [mbind option_bind]. destruct cp; cbn [disk log].
    + destruct (ProcessLogosFixed.convert_orange_to_purple img) as [out|];
        cbn [mbind option_bind disk log]; [apply exec_save | reflexivity].
    + apply exec_save.
Qed.

Lemma first_main_jobs (fs : files) :
  ProcessLogos.main fs = Py.for_each first_jobs (run_job true) fs.
Proof.
  unfold ProcessLogos.main, first_jobs.
  rewrite for_each_app, !for_each_fmap.
  rewrite (for_each_ext _ _ (λ e, run_job true (single_job e))).
  - destruct (Py.for_each _ _ fs) as [fs1|]; cbn [mbind option_bind];
      [|reflexivity].
    rewrite for_each_fmap.
    apply for_each_ext. intros [[filename base_name] convert] fs2.
    unfold run_job; cbn [sheet_job job_src job_dst job_run fst snd andb].
    destruct (Os.path_exists fs2 _); cbn [negb]; [|reflexivity].
    rewrite exec_reference_sheet. reflexivity.
  - intros [[filename output_name] convert] fs1.
    unfold run_job; cbn [single_job job_src job_dst job_run fst snd andb].
    destruct (Os.path_exists fs1 _); cbn [negb]; [|reflexivity].
    rewrite exec_single_icon. reflexivity.
Qed.

Lemma fixed_main_jobs (fs : files) :
  ProcessLogosFixed.main fs = Py.for_each fixed_jobs (run_job false) fs.
Proof.
  unfold ProcessLogosFixed.main, fixed_jobs. rewrite for_each_fmap.
  apply for_each_ext. intros [[[source_file output_name] cp] rb] fs1.
  rewrite exec_logo. reflexivity.
Qed.

(** ** Running a list of jobs *)

Lemma image_open_agree (fs1 fs2 : files) (path : string) :
  fs1 !! path = fs2 !! path → Os.image_open fs1 path = Os.image_open fs2 path.
Proof. unfold Os.image_open. intros ->. reflexivity. Qed.

Lemma image_open_exists (fs : files) (path : string) (img : image) :
  Os.image_open fs path = Some img → Os.path_exists fs path = true.
Proof.
  rewrite path_exists_lookup. unfold Os.image_open.
  destruct (fs !! path); [reflexivity | discriminate].
Qed.

Lemma run_job_agree (b : bool) (j : job) (fs1 fs2 : files) :
  fs1 !! job_src j = fs2 !! job_src j →
  run_job b j fs1 = None → run_job b j fs2 = None.
Proof.
  intros Hsrc. unfold run_job.
  rewrite !path_exists_lookup, (image_open_agree _ _ _ Hsrc), Hsrc.
  destruct (b && negb _); [discriminate|].
  destruct (Os.image_open fs2 (job_src j)) as [img|]; cbn [mbind option_bind];
    [|reflexivity].
  destruct (job_run j img) as [img'|]; cbn [mbind option_bind]; [|reflexivity].
  unfold Os.image_save. destruct (Os.is_empty img'); [reflexivity | discriminate].
Qed.

Lemma run_job_frame (b : bool) (j : job) (fs fs' : files) (k : string) :
  run_job b j fs = Some fs' → k ≠ job_dst j → fs' !! k = fs !! k.
Proof.
  unfold run_job. intros Hrun Hk.
  destruct (b && negb _); [injection Hrun as <-; reflexivity|].
  destruct (Os.image_open fs (job_src j)) as [img|]; cbn [mbind option_bind] in Hrun;
    [|discriminate].
  destruct (job_run j img) as [img'|]; cbn [mbind option_bind] in Hrun;
    [|discriminate].
  unfold Os.image_save in Hrun. destruct (Os.is_empty img'); [discriminate|].
  injection Hrun as <-. apply lookup_insert_ne. congruence.
Qed.

Lemma run_jobs_frame (b : bool) (js : list job) :
  ∀ (fs fs' : files) (k : string),
    Py.for_each js (run_job b) fs = Some fs' →
    k ∉ job_dst <$> js → fs' !! k = fs !! k.
Proof.
  induction js as [|j js IH]; intros fs fs' k Hrun Hk; cbn [Py.for_each] in Hrun.
  - injection Hrun as <-. reflexivity.
  - destruct (run_job b j fs) as [fs1|] eqn:H1; cbn [mbind option_bind] in Hrun;
      [|discriminate].
    rewrite fmap_cons, not_elem_of_cons in Hk. destruct Hk as [Hkj Hk].
    rewrite (IH _ _ _ Hrun Hk). exact (run_job_frame _ _ _ _ _ H1 Hkj).
Qed.

Lemma jobs_apart_cons (j : job) (js : list job) :
  jobs_apart (j :: js) →
  (job_dst j ∉ job_dst <$> js) ∧ job_src j ≠ job_dst j ∧
  (∀ j', j' ∈ js → job_src j' ≠ job_dst j) ∧ jobs_apart js.
Proof.
  unfold jobs_apart. rewrite !fmap_cons. intros [Hnd Hsd].
  apply NoDup_cons in Hnd as [Hj Hnd]. apply Forall_cons in Hsd as [Hs Hsd].
  rewrite not_elem_of_cons in Hs. destruct Hs as [Hs _].
  split; [exact Hj|]. split; [exact Hs|]. split.
  - intros j' Hj' Heq. rewrite Forall_forall in Hsd.
    apply (Hsd (job_src j')).
    + apply list_elem_of_fmap_2, Hj'.
    + rewrite Heq. apply list_elem_of_here.
  - split; [exact Hnd|]. eapply Forall_impl; [exact Hsd|].
    intros src Hsrc Hin. apply Hsrc. apply list_elem_of_further, Hin.
Qed.

Lemma run_jobs_result (b : bool) (js : list job) :
  jobs_apart js →
  ∀ (fs fs' : files), Py.for_each js (run_job b) fs = Some fs' →
  ∀ (j : job) (img : image), j ∈ js → Os.image_open fs (job_src j) = Some img →
  ∃ img', job_run j img = Some img' ∧ fs' !! job_dst j = Some (Picture img').
Proof.
  induction js as [|j0 js IH]; intros Hapart fs fs' Hrun j img Hj Hsrc.
  - apply elem_of_nil in Hj. contradiction.
  - apply jobs_apart_cons in Hapart as (Hd0 & Hs0 & Hsrcs & Hapart).
    cbn [Py.for_each] in Hrun.
    destruct (run_job b j0 fs) as [fs1|] eqn:H1; cbn [mbind option_bind] in Hrun;
      [|discriminate].
    apply elem_of_cons in Hj as [->|Hj].
    + unfold run_job in H1.
      rewrite (image_open_exists _ _ _ Hsrc), andb_false_r, Hsrc in H1.
      cbn [mbind option_bind] in H1.
      destruct (job_run j0 img) as [img'|]; cbn [mbind option_bind] in H1;
        [|discriminate].
      unfold Os.image_save in H1. destruct (Os.is_empty img'); [discriminate|].
      injection H1 as <-. exists img'. split; [reflexivity|].
      rewrite (run_jobs_frame _ _ _ _ _ Hrun Hd0). apply lookup_insert_eq.
    + apply (IH Hapart fs1 fs' Hrun j img Hj).
      rewrite (image_open_agree fs1 fs); [exact Hsrc|].
      exact (run_job_frame _ _ _ _ _ H1 (Hsrcs j Hj)).
Qed.


Lemma run_jobs_raise (b : bool) (js : list job) :
  jobs_apart js →
  ∀ (fs : files) (j : job), j ∈ js → run_job b j fs = None →
  Py.for_each js (run_job b) fs = None.
Proof.
  induction js as [|j0 js IH]; intros Hapart fs j Hj Hnone.
  - apply elem_of_nil in Hj. contradiction.
  - apply jobs_apart_cons in Hapart as (Hd0 & Hs0 & Hsrcs & Hapart).
    cbn [Py.for_each].
    destruct (run_job b j0 fs) as [fs1|] eqn:H1; cbn [mbind option_bind];
      [|reflexivity].
    apply elem_of_cons in Hj as [->|Hj]; [congruence|].
    apply (IH Hapart fs1 j Hj).
    apply (run_job_agree b j fs fs1); [|exact Hnone].
    symmetry. exact (run_job_frame _ _ _ _ _ H1 (Hsrcs j Hj)).
Qed.


Lemma first_jobs_apart : jobs_apart first_jobs.
Proof.
  split.
  - apply (bool_decide_unpack _). vm_compute. exact I.
  - apply (bool_decide_unpack _). vm_compute. exact I.
Qed.

Lemma fixed_jobs_apart : jobs_apart fixed_jobs.
Proof.
  split.
  - apply (bool_decide_unpack _). vm_compute. exact I.
  - apply (bool_decide_unpack _). vm_compute. exact I.
Qed.

(** ** What [main] does to a folder *)

Lemma single_job_in (filename output_name : string) (convert : bool) :
  (filename, output_name, convert) ∈ ProcessLogos.files_to_process →
  single_job (filename, output_name, convert) ∈ first_jobs.
Proof.
  intros Hin. unfold first_jobs. apply elem_of_app. left.
  apply list_elem_of_fmap_2, Hin.
Qed.

Lemma sheet_job_in (filename base_name : string) (convert : bool) :
  (filename, base_name, convert) ∈ ProcessLogos.reference_sheets →
  sheet_job (filename, base_name, convert) ∈ first_jobs.
Proof.
  intros Hin. unfold first_jobs. apply elem_of_app. right.
  apply list_elem_of_fmap_2, Hin.
Qed.

Lemma sources_not_outputs (js : list job) (path : string) :
  jobs_apart js → path ∈ job_src <$> js → path ∉ job_dst <$> js.
Proof.
  intros [_ Hsd] Hin. rewrite Forall_forall in Hsd. exact (Hsd path Hin).
Qed.

Lemma first_icon_empty (img : image) (cp : bool) :
  Os.is_empty (first_icon img cp)
  = (Nat.min (width img / 3) (height img / 2) =? 0)%nat.
Proof.
  destruct (first_processed_dimensions img cp) as (Hw & Hh & _).
  unfold first_icon, Os.is_empty, crop; cbn [width height].
  rewrite Hw, Hh, Nat.sub_0_r. apply orb_diag.
Qed.


Lemma sheet_side_zero (img : image) :
  (width img < 3)%nat ∨ (height img < 2)%nat →
  Nat.min (width img / 3) (height img / 2) = 0%nat.
Proof.
  intros [Hw|Hh].
  - rewrite (Nat.div_small (width img) 3 Hw). apply Nat.min_0_l.
  - rewrite (Nat.div_small (height img) 2 Hh). apply Nat.min_0_r.
Qed.





(** X10: the first version's [main] writes its ten output files and nothing
    else: every other path of the folder, and so every source image, holds
    after the run what it held before. *)
Theorem first_main_frame (fs fs' : files) :
  ProcessLogos.main fs = Some fs' →
  (∀ path, path ∉ first_outputs → fs' !! path = fs !! path) ∧
  (∀ path, path ∈ first_sources → fs' !! path = fs !! path).
Proof.
  rewrite first_main_jobs. intros Hrun.
  assert (∀ path, path ∉ first_outputs → fs' !! path = fs !! path) as Hframe
    by (intros path Hpath; exact (run_jobs_frame _ _ _ _ _ Hrun Hpath)).
  split; [exact Hframe|].
  intros path Hpath. apply Hframe.
  exact (sources_not_outputs _ _ first_jobs_apart Hpath).
Qed.

Lemma first_main_frame_witness :
  let fs' := default ∅ (ProcessLogos.main first_sample_folder) in
  (∀ path, path ∉ first_outputs → fs' !! path = first_sample_folder !! path) ∧
  (∀ path, path ∈ first_sources → fs' !! path = first_sample_folder !! path).
Proof.
  apply (first_main_frame first_sample_folder
           (default ∅ (ProcessLogos.main first_sample_folder))).
  vm_compute. reflexivity.
Defined.

(** X11: when the first version's [main] has run to the end, every entry of
    its two tables whose source file opened has its output file: a single
    icon gives the image with the background removed and, when asked for,
    remapped; a reference sheet gives the icon cut out of that image.  The
    sources are read as they were before the run. *)
Theorem first_main_outputs (fs fs' : files) (filename name : string)
    (convert : bool) (img : image) :
  ProcessLogos.main fs = Some fs' →
  Os.image_open fs (Os.path_join ProcessLogos.SOURCE_DIR filename) = Some img →
  ((filename, name, convert) ∈ ProcessLogos.files_to_process →
     fs' !! Os.path_join ProcessLogos.OUTPUT_DIR name
     = Some (Picture (first_processed img convert))) ∧
  ((filename, name, convert) ∈ ProcessLogos.reference_sheets →
     fs' !! Os.path_join ProcessLogos.OUTPUT_DIR (name +:+ "-icon.png")
     = Some (Picture (first_icon img convert))).
Proof.
  rewrite first_main_jobs. intros Hrun Hsrc.
  pose proof (run_jobs_result true first_jobs first_jobs_apart fs fs' Hrun) as Hres.
  split; intros Hin.
  - destruct (Hres _ img (single_job_in _ _ _ Hin) Hsrc) as (img' & Himg' & Hout).
    cbn [single_job job_run job_dst fst snd] in Himg', Hout.
    injection Himg' as <-. exact Hout.
  - destruct (Hres _ img (sheet_job_in _ _ _ Hin) Hsrc) as (img' & Himg' & Hout).
    cbn [sheet_job job_run job_dst fst snd] in Himg', Hout.
    injection Himg' as <-. exact Hout.
Qed.

Lemma first_main_outputs_witness :
  let fs' := default ∅ (ProcessLogos.main first_sample_folder) in
  (("ChatGPT Image Nov 28, 2025, 11_04_30 PM.png", "gargantua-purple-dark.png", true)
     ∈ ProcessLogos.files_to_process →
     fs' !! Os.path_join ProcessLogos.OUTPUT_DIR "gargantua-purple-dark.png"
     = Some (Picture (first_processed sheet true))) ∧
  (("ChatGPT Image Nov 28, 2025, 11_04_30 PM.png", "gargantua-purple-dark.png", true)
     ∈ ProcessLogos.reference_sheets →
     fs' !! Os.path_join ProcessLogos.OUTPUT_DIR
             ("gargantua-purple-dark.png" +:+ "-icon.png")
     = Some (Picture (first_icon sheet true))).
Proof.
  apply (first_main_outputs first_sample_folder
           (default ∅ (ProcessLogos.main first_sample_folder))
           "ChatGPT Image Nov 28, 2025, 11_04_30 PM.png"
           "gargantua-purple-dark.png" true sheet).
  - vm_compute. reflexivity.
  - reflexivity.
Defined.



(** X13: the fixed version's [main] does not look whether a file is there:
    when one of its seven source files is missing, the run raises and
    nothing is handed back. *)
Theorem fixed_main_missing_source (fs : files) (path : string) :
  path ∈ fixed_sources → fs !! path = None →
  ProcessLogosFixed.main fs = None.
Proof.
  intros Hpath Hnone. rewrite fixed_main_jobs.
  apply list_elem_of_fmap_1 in Hpath as (j & -> & Hj).
  apply (run_jobs_raise false fixed_jobs fixed_jobs_apart fs j Hj).
  unfold run_job, Os.image_open. rewrite Hnone. reflexivity.
Qed.

Lemma fixed_main_missing_source_witness :
  ProcessLogosFixed.main (one_file "notes.txt" sheet) = None.
Proof.
  apply (fixed_main_missing_source (one_file "notes.txt" sheet)
           (Os.path_join ProcessLogosFixed.SOURCE_DIR
              "ChatGPT Image Nov 28, 2025, 11_12_54 PM.png")).
  - apply (bool_decide_unpack _). vm_compute. exact I.
  - reflexivity.
Defined.





(** X16: the first version's [main] raises when a source file is there but
    does not open as an image, and when a reference sheet that is there is
    narrower than 3 pixels or lower than 2: the crop is then empty and
    Pillow refuses to save it. *)
Theorem first_main_raises (fs : files) (filename base_name : string)
    (convert : bool) :
  (filename, base_name, convert) ∈ ProcessLogos.reference_sheets →
  is_Some (fs !! Os.path_join ProcessLogos.SOURCE_DIR filename) →
  (∀ img, Os.image_open fs (Os.path_join ProcessLogos.SOURCE_DIR filename) = Some img →
          (width img < 3)%nat ∨ (height img < 2)%nat) →
  ProcessLogos.main fs = None.
Proof.
  intros Hin [f Hf] Hsmall. rewrite first_main_jobs.
  apply (run_jobs_raise true first_jobs first_jobs_apart fs
           (sheet_job (filename, base_name, convert)) (sheet_job_in _ _ _ Hin)).
  unfold run_job; cbn [sheet_job job_src job_dst job_run fst snd].
  rewrite path_exists_lookup, Hf. cbn [negb andb].
  destruct (Os.image_open fs _) as [img|] eqn:Hopen; cbn [mbind option_bind];
    [|reflexivity].
  unfold Os.image_save.
  rewrite first_icon_empty, (sheet_side_zero img (Hsmall img eq_refl)). reflexivity.
Qed.

Lemma first_main_raises_witness :
  ProcessLogos.main
    (one_file (Os.path_join ProcessLogos.SOURCE_DIR
                 "ChatGPT Image Nov 28, 2025, 11_20_49 PM.png") tiny_sheet) = None.
Proof.
  apply (first_main_raises
           (one_file (Os.path_join ProcessLogos.SOURCE_DIR
                        "ChatGPT Image Nov 28, 2025, 11_20_49 PM.png") tiny_sheet)
           "ChatGPT Image Nov 28, 2025, 11_20_49 PM.png" "gargantua-blue" false).
  - apply (bool_decide_unpack _). vm_compute. exact I.
  - exists (Picture tiny_sheet). reflexivity.
  - intros img Himg. vm_compute in Himg. injection Himg as <-. left. cbn. lia.
Defined.

(** X15: the fixed [convert_orange_to_purple] changes a pixel exactly when
    its alpha is at least 10 and it is an orange tone: the dark, light and
    blue guards never hold back an orange tone, and no other pixel is
    touched. *)
Theorem fixed_remap_exactly (img : image) (x y : nat) (p : pixel) :
  wf_image img → getpixel img x y = Some p →
  ∃ out q, ProcessLogosFixed.convert_orange_to_purple img = Some out ∧
           getpixel out x y = Some q ∧
           (q ≠ p ↔ 10 <= alpha p ∧ orange_tone p).
Proof.
  intros Hwf Hget.
  exists (map_image fixed_recolor_px img), (fixed_recolor_px p).
  split; [apply fixed_convert_map, Hwf|].
  split; [rewrite getpixel_map_image, Hget; reflexivity|].
  unfold fixed_recolor_px, orange_tone. destruct (remapped p) eqn:Hr.
  - assert (10 <= alpha p ∧ green p > 50 ∧ red p > 150 ∧ blue p < 150
            ∧ red p > green p ∧ green p > blue p) as Hp.
    { unfold remapped, is_transparent, is_orange,
        ProcessLogosFixed.is_orange_tone in Hr. lia. }
    split; [intros _; lia|].
    intros _ Heq. apply (f_equal green) in Heq. cbn [green] in Heq. lia.
  - split; [intros Hne; contradiction|].
    intros Hp. exfalso.
    unfold remapped, is_transparent, is_very_dark, is_very_light,
      is_blue_dominant, is_orange, all_above, all_below,
      ProcessLogosFixed.is_orange_tone in Hr. lia.
Qed.

Lemma fixed_remap_exactly_witness :
  ∃ out q, ProcessLogosFixed.convert_orange_to_purple sheet = Some out ∧
           getpixel out 1 1 = Some q ∧
           (q ≠ orange_px ↔ 10 <= alpha orange_px ∧ orange_tone orange_px).
Proof.
  apply (fixed_remap_exactly sheet 1 1 orange_px).
  - apply wf_imageb_true. reflexivity.
  - reflexivity.
Defined.
